(** * The path parser of the intake-ESM catalog guide

    A shallow embedding of [parse_ae_ren_data], the custom parsing function of
    [code/notebooks/build_catalog_guide.ipynb], and the properties of the
    catalog records it builds.

    Python strings are [string]; the methods of [str] the parser calls are
    given as structural functions in [Module Str]; the body of the parser runs
    in a small state-and-exception monad whose state is the binding of the
    local name [filepath] (which the body rebinds) together with the
    exceptions the interpreter is currently handling (which
    [traceback.format_exc] reads). *)

From Stdlib Require Import Ascii String.
From stdpp Require Import base strings list gmap.

Open Scope string_scope.

(** ** Python's [str] methods *)

Module Str.

(** [s.startswith(p)] *)
Fixpoint startswith (s p : string) {struct p} : bool :=
  match p with
  | "" => true
  | String a p' =>
      match s with
      | "" => false
      | String b s' => if Ascii.eqb a b then startswith s' p' else false
      end
  end.

(** [s.endswith(p)]: some suffix of [s] is [p]. *)
Fixpoint endswith (s p : string) : bool :=
  String.eqb s p ||
  match s with
  | "" => false
  | String _ s' => endswith s' p
  end.

(** [sep in s], as a proposition: [sep] occurs in [s] as a substring. *)
Definition contains (s sep : string) : Prop :=
  ∃ a b, s = a +:+ sep +:+ b.

(** [sep in s], as Python evaluates it: a scan from the left. *)
Fixpoint containsb (s sep : string) : bool :=
  startswith s sep ||
  match s with
  | "" => false
  | String _ s' => containsb s' sep
  end.

(** [s.find(sep)]: the index of the first occurrence, [None] for Python's
    [-1]. *)
Fixpoint find (s sep : string) : option nat :=
  if startswith s sep then Some 0
  else match s with
       | "" => None
       | String _ s' => S <$> find s' sep
       end.

(** [s] is [a], then its first occurrence of [sep], then [b]. *)
Definition first_occurrence (s sep a b : string) : Prop :=
  s = a +:+ sep +:+ b ∧ find s sep = Some (String.length a).

(** [c in s] for a single character. *)
Fixpoint occurs (c : ascii) (s : string) : bool :=
  match s with
  | "" => false
  | String a s' => Ascii.eqb c a || occurs c s'
  end.

(** ["/".join(l)] *)
Fixpoint join (sep : string) (l : list string) : string :=
  match l with
  | [] => ""
  | [x] => x
  | x :: l' => x +:+ sep +:+ join sep l'
  end.

(** Puts one more character in front of the piece being read. *)
Definition cons_head (c : ascii) (l : list string) : list string :=
  match l with
  | p :: ps => String c p :: ps
  | [] => [String c ""]
  end.

(** The scan of [s.split(sep)]: at each position outside a separator the
    scan looks for [sep]; when it is there the current piece ends and the
    next [String.length sep] characters are skipped ([skip] counts those
    still to skip), otherwise the character joins the current piece. *)
Fixpoint split_go (sep : string) (skip : nat) (s : string) : list string :=
  match s with
  | "" => [""]
  | String c s' =>
      match skip with
      | S k => split_go sep k s'
      | O =>
          if startswith s sep
          then "" :: split_go sep (String.length sep - 1) s'
          else cons_head c (split_go sep 0 s')
      end
  end.

(** [s.split(sep)] for a non-empty [sep] (Python raises [ValueError] on an
    empty separator; the parser only splits on non-empty literals). *)
Definition split (s sep : string) : list string := split_go sep 0 s.

End Str.

(** ** Exceptions, interpreter state and the monad of the body *)

(** The exceptions the body can raise. *)
Inductive exn : Type :=
| IndexError              (* list index out of range *)
| ValueError (got : nat)  (* wrong number of values to unpack *)
| KeyError (key : string).

(** The part of the state the body reads and writes: the local name
    [filepath], and [sys.exc_info()], the exception being handled: first
    the exception itself, then its [__context__] (the exception that was
    being handled when it was raised), then the context of that one, and so
    on; the empty list when no exception is being handled. *)
Record state : Type := State {
  filepath : string;
  exc_info : list exn;
}.

Definition M (A : Type) : Type := state → (exn + A) * state.

#[global] Instance M_ret : MRet M := λ A (a : A) st, (inr a, st).

#[global] Instance M_bind : MBind M := λ A B (k : A → M B) (m : M A) st,
  match m st with
  | (inl e, st') => (inl e, st')
  | (inr a, st') => k a st'
  end.

Definition raise {A} (e : exn) : M A := λ st, (inl e, st).

(** Reading and rebinding the local name [filepath]. *)
Definition get_filepath : M string := λ st, (inr (filepath st), st).

Definition set_filepath (v : string) : M unit :=
  λ st, (inr (), State v (exc_info st)).

(** [try: body / except Exception as e: return handler]. The exception
    raised in the body has for context the exception that was being handled
    when it was raised. While the handler runs, the exception being handled
    is [e] with that context; leaving the handler restores the one that was
    being handled before. The result says which way the statement was left:
    [inl] when the handler returned from the function, [inr] when the body
    completed. *)
Definition try_except_return {A B} (body : M A) (handler : M B) : M (B + A) :=
  λ st,
    match body st with
    | (inr a, st') => (inr (inr a), st')
    | (inl e, st') =>
        let saved := exc_info st' in
        match handler (State (filepath st') (e :: saved)) with
        | (inr b, st'') => (inr (inl b), State (filepath st'') saved)
        | (inl e', st'') => (inl e', State (filepath st'') saved)
        end
    end.

(** [l[i]] on a list. *)
Definition getitem {A} (l : list A) (i : nat) : M A :=
  match l !! i with
  | Some x => mret x
  | None => raise IndexError
  end.

(** [d[k]] on a dict. *)
Definition getitem_dict (d : gmap string string) (k : string) : M string :=
  match d !! k with
  | Some v => mret v
  | None => raise (KeyError k)
  end.

(** [a, b, c, d, e, f, g, h = l] *)
Definition unpack8 (l : list string)
  : M (string * string * string * string * string * string * string * string) :=
  match l with
  | [a; b; c; d; e; f; g; h] => mret (a, b, c, d, e, f, g, h)
  | _ => raise (ValueError (length l))
  end.

(** ** The records the parser returns *)

Record info : Type := MkInfo {
  installation : string;
  activity_id : string;
  institution_id : string;
  source_id : string;
  experiment_id : string;
  table_id : string;
  variable_id : string;
  grid_label : string;
  path : string;
}.

(** The dict the parser returns: the nine attributes of a catalog record, or
    the two keys [INVALID_ASSET] and [TRACEBACK] of ecgtools. *)
Inductive record : Type :=
| CatalogRecord (i : info)
| ParseFailure (INVALID_ASSET TRACEBACK : string).

(** ** The parser *)

Definition root_prefix : string := "s3://wfclimres/".
Definition zmetadata : string := ".zmetadata".

(** Simulation string mapping *)
Definition simulation_dict : gmap string string :=
  list_to_map [
    ("ec-earth3", "EC-Earth3");
    ("mpi-esm1-2-hr", "MPI-ESM1-2-HR");
    ("miroc6", "MIROC6");
    ("taiesm1", "TaiESM1");
    ("era5", "ERA5")
  ].

Section Parser.

(** The text [traceback] renders for an exception and the chain of its
    contexts, the exception first. *)
Variable render : list exn → string.

(** [traceback.format_exc()]: renders the exception being handled, with the
    chain of its contexts. *)
Definition format_exc : M string := λ st,
  (inr (match exc_info st with
        | e :: context => render (e :: context)
        | [] => "NoneType: None"
        end), st).

(** The statements under [try]. *)
Definition try_block
  : M (string * string * string * string * string * string * string * string) :=
  fp ← get_filepath;
  remainder ← getitem (Str.split fp root_prefix) 1;
  segments ← unpack8 (Str.split remainder "/");
  fp ← get_filepath;
  stripped ← getitem (Str.split fp zmetadata) 0;
  set_filepath stripped;;
  mret segments.

(** The dict built under [except]. *)
Definition except_block : M record :=
  fp ← get_filepath;
  tb ← format_exc;
  mret (ParseFailure fp tb).

Definition parse_ae_ren_data_body : M record :=
  r ← try_except_return try_block except_block;
  match r with
  | inl failure => mret failure
  | inr (_, installation, source_id, experiment_id,
         table_id, variable_id, grid_label, _) =>
      canonical ← getitem_dict simulation_dict source_id;
      fp ← get_filepath;
      mret (CatalogRecord {|
        installation := installation;
        activity_id := "WRF";
        institution_id := "ERA";
        source_id := canonical;
        experiment_id := experiment_id;
        table_id := table_id;
        variable_id := variable_id;
        grid_label := grid_label;
        path := fp |})
  end.

(** A call of [parse_ae_ren_data(filepath)] while the interpreter is handling
    [handling] (the empty list at top level): the body runs in a fresh frame
    that binds the argument. The result is what the call returns ([inr]) or
    the exception it raises ([inl], without its context), and the exceptions
    being handled when the call is over. *)
Definition parse_ae_ren_data (fp : string) (handling : list exn)
  : (exn + record) * list exn :=
  match parse_ae_ren_data_body (State fp handling) with
  | (r, st) => (r, exc_info st)
  end.

End Parser.

(** ** Segments and the paths of the examples *)

(** The expression the parser unpacks:
    [filepath.split("s3://wfclimres/")[1].split("/")], when the index
    exists. *)
Definition segments_of (fp : string) : option (list string) :=
  (λ remainder, Str.split remainder "/") <$> (Str.split fp root_prefix !! 1).

(** A segment as the catalog's paths have them: not empty, no separator. *)
Definition plain_segment (s : string) : Prop :=
  s ≠ "" ∧ ¬ Str.contains s "/".

(** One line per exception, a rendering used in the examples. *)
Definition exn_name (e : exn) : string :=
  match e with
  | IndexError => "IndexError"
  | ValueError _ => "ValueError"
  | KeyError _ => "KeyError"
  end.

(** A rendering of a chain in the order [traceback] prints it: the oldest
    context first, each followed by the line that announces the next. *)
Definition chain_names (chain : list exn) : string :=
  Str.join
    "; during handling of the above exception, another exception occurred: "
    (exn_name <$> reverse chain).

(** The path of the guide's example, one with a simulation the dict does not
    have, and the example of the function's docstring. *)
Definition guide_path : string :=
  "s3://wfclimres/ERA/pv_distributed/ec-earth3/historical/1hr/cf/d03/.zmetadata".
Definition unknown_model_path : string :=
  "s3://wfclimres/ERA/pv_distributed/unknown-model-x/historical/1hr/cf/d03/.zmetadata".
Definition docstring_path : string :=
  "s3://wfclimres/ERA/WRF/EC-Earth3/experiment/precipitation/variable/zarr/file.zmetadata".
Definition five_segment_path : string :=
  "s3://wfclimres/ERA/pv_distributed/historical/1hr/cf".

(** A path that holds the root prefix twice. *)
Definition double_prefix_path : string :=
  "s3://wfclimres/a/b/ec-earth3/d/e/f/g/s3://wfclimres/x".

(** A path that does not start with the root prefix but holds it. *)
Definition junk_path : string :=
  "junk-s3://wfclimres/era/pv_distributed/ec-earth3/historical/1hr/cf/d03/.zmetadata".

(** A path whose last segment is not the metadata file, and one that holds
    [.zmetadata] before its end. *)
Definition netcdf_path : string :=
  "s3://wfclimres/ERA/pv_distributed/ec-earth3/historical/1hr/cf/d03/data.nc".
Definition early_zmetadata_path : string :=
  "s3://wfclimres/ERA/pv_distributed/ec-earth3/historical/1hr/cf.zmetadata/d03/x".

(** ** The cells around the parser *)

(** The items of the dict [info], in the order of the literal. *)
Definition info_items (i : info) : list (string * string) :=
  [("installation", installation i);
   ("activity_id", activity_id i);
   ("institution_id", institution_id i);
   ("source_id", source_id i);
   ("experiment_id", experiment_id i);
   ("table_id", table_id i);
   ("variable_id", variable_id i);
   ("grid_label", grid_label i);
   ("path", path i)].

(** Use these to filter the s3 bucket *)
Definition installations : list string :=
  ["pv_distributed"; "pv_utility"; "windpower_offshore"; "windpower_onshore"].
Definition source_ids : list string :=
  ["ec-earth3"; "miroc6"; "mpi-esm1-2-hr"; "taiesm1"; "era5"].

(** Total iterations for tqdm, from the two lists of the cell. *)
Definition total_iterations (insts srcs : list string) : nat :=
  length insts * length srcs.

(** The pattern of one query,
    [f"s3://wfclimres/era/{installation}/{source_id}/**/*.zmetadata"]. *)
Definition glob_pattern (installation source_id : string) : string :=
  "s3://wfclimres/era/" +:+ installation +:+ "/" +:+ source_id
  +:+ "/**/*.zmetadata".

(** ["s3://"+file.split(".zmetadata")[0]]; a split always has a first
    piece, so the default is never taken. *)
Definition zarr_path (file : string) : string :=
  "s3://" +:+ hd "" (Str.split file zmetadata).

(** What the scan of the bucket builds: the list [filepaths] and the count
    of the progress bar. *)
Record scan_state : Type := ScanState {
  filepaths : list string;
  pbar : nat;
}.

(** The body of the inner loop, for the listing [glob] of the bucket
    ([fs.glob]). *)
Definition scan_query (glob : string → list string) (installation : string)
    (st : scan_state) (source_id : string) : scan_state :=
  let glob_s3 := glob (glob_pattern installation source_id) in
  let zarr_paths := zarr_path <$> glob_s3 in
  ScanState (filepaths st ++ zarr_paths) (pbar st + 1).

(** The two loops, from [filepaths = []] and a bar at zero. *)
Definition scan (glob : string → list string) (insts srcs : list string)
  : scan_state :=
  foldl (λ st installation, foldl (scan_query glob installation) st srcs)
    (ScanState [] 0) insts.

(** The roots of the second Builder,
    [f's3://wfclimres/era/{installation}/'], and its depth. *)
Definition method2_path (installation : string) : string :=
  "s3://wfclimres/era/" +:+ installation +:+ "/".
Definition method2_paths : list string := method2_path <$> installations.
Definition method2_depth : nat := 5.

(** The path of the file [name] that lies [length dirs] directories below
    [root]. *)
Definition asset_below (root : string) (dirs : list string) (name : string)
  : string :=
  root +:+ Str.join "/" (dirs ++ [name]).

(** The columns named in the call of [save]. *)
Definition path_column_name : string := "path".
Definition variable_column_name : string := "variable_id".
Definition groupby_attrs : list string :=
  ["installation"; "activity_id"; "institution_id"; "source_id";
   "experiment_id"; "table_id"; "grid_label"].

(** * Facts about the [str] methods *)

Module StrFacts.
Import Str.

#[local] Arguments String.append : simpl nomatch.

Lemma app_nil_r (s : string) : s +:+ "" = s.
Proof. induction s as [|c s IH]; simpl; [done | by rewrite IH]. Qed.

Lemma app_assoc (a b c : string) : (a +:+ b) +:+ c = a +:+ b +:+ c.
Proof. induction a as [|x a IH]; simpl; [done | by rewrite IH]. Qed.

Lemma length_app (a b : string) :
  String.length (a +:+ b) = String.length a + String.length b.
Proof. induction a as [|x a IH]; simpl; [done | by rewrite IH]. Qed.

Lemma startswith_app (p r : string) : startswith (p +:+ r) p = true.
Proof.
  induction p as [|c p IH]; simpl; [done |].
  by rewrite Ascii.eqb_refl.
Qed.

Lemma startswith_spec (s p : string) :
  startswith s p = true ↔ ∃ r, s = p +:+ r.
Proof.
  split.
  - revert s. induction p as [|a p IH]; intros s H; simpl in *.
    + by exists s.
    + destruct s as [|b s]; [done |].
      destruct (Ascii.eqb_spec a b) as [-> | _]; [| done].
      destruct (IH _ H) as [r ->]. by exists r.
  - intros [r ->]. apply startswith_app.
Qed.

Lemma startswith_trans (s h t p : string) :
  s = h +:+ t → startswith h p = true → startswith s p = true.
Proof.
  intros -> [r ->]%startswith_spec. rewrite app_assoc. apply startswith_app.
Qed.

Lemma contains_nil (sep : string) : contains "" sep → sep = "".
Proof.
  intros ([|x a] & b & H); simpl in H; [| done].
  destruct sep; [done | discriminate].
Qed.

Lemma contains_cons (c : ascii) (s sep : string) :
  contains s sep → contains (String c s) sep.
Proof. intros (a & b & ->). by exists (String c a), b. Qed.

Lemma contains_cons_inv (c : ascii) (s sep : string) :
  contains (String c s) sep →
  startswith (String c s) sep = true ∨ contains s sep.
Proof.
  intros ([|x a] & b & H); simpl in H.
  - left. rewrite H. apply startswith_app.
  - right. injection H as _ ->. by exists a, b.
Qed.

Lemma startswith_contains (s sep : string) :
  startswith s sep = true → contains s sep.
Proof. intros [r ->]%startswith_spec. by exists "", r. Qed.

Lemma containsb_spec (s sep : string) :
  containsb s sep = true ↔ contains s sep.
Proof.
  induction s as [|c s IH].
  - simpl. rewrite orb_false_r. split.
    + apply startswith_contains.
    + intros ->%contains_nil. done.
  - simpl. rewrite orb_true_iff, IH. split.
    + intros [H | H]; [by apply startswith_contains | by apply contains_cons].
    + apply contains_cons_inv.
Qed.

Lemma not_contains_spec (s sep : string) :
  containsb s sep = false ↔ ¬ contains s sep.
Proof.
  rewrite <- containsb_spec. destruct (containsb s sep); naive_solver.
Qed.

Lemma endswith_spec (s p : string) :
  endswith s p = true ↔ ∃ a, s = a +:+ p.
Proof.
  induction s as [|c s IH]; cbn [endswith].
  - rewrite orb_false_r, String.eqb_eq. split.
    + intros <-. by exists "".
    + intros ([|x a] & H); simpl in H; [done | discriminate].
  - rewrite orb_true_iff, String.eqb_eq, IH. split.
    + intros [<- | [a ->]]; [by exists "" | by exists (String c a)].
    + intros ([|x a] & H); simpl in H; [by left |].
      injection H as _ ->. right. by exists a.
Qed.

Lemma endswith_contains (s p : string) :
  endswith s p = true → contains s p.
Proof.
  intros [a ->]%endswith_spec. exists a, "". by rewrite app_nil_r.
Qed.

(** ** [find] *)

Lemma find_least (s sep : string) (n : nat) :
  find s sep = Some n →
  ∀ a b, s = a +:+ sep +:+ b → (n ≤ String.length a)%nat.
Proof.
  revert n. induction s as [|c s IH]; intros n Hf a b Hs; cbn [find] in Hf.
  - destruct (startswith "" sep); simplify_eq. lia.
  - destruct (startswith (String c s) sep) eqn:E; simplify_eq; [lia |].
    destruct a as [|x a]; simpl in Hs.
    + rewrite Hs, startswith_app in E. done.
    + destruct (find s sep) as [m|] eqn:F; simplify_eq/=.
      apply le_n_S. by eapply IH.
Qed.

Lemma find_Some (s sep : string) (n : nat) :
  find s sep = Some n →
  ∃ a b, first_occurrence s sep a b ∧ String.length a = n.
Proof.
  revert n. induction s as [|c s IH]; intros n Hf.
  - cbn [find] in Hf. destruct (startswith "" sep) eqn:E; simplify_eq.
    apply startswith_spec in E as [r E]. exists "", r. split; [| done].
    split; [done |]. cbn [find]. rewrite E at 1. by rewrite startswith_app.
  - pose proof Hf as Hf'. cbn [find] in Hf.
    destruct (startswith (String c s) sep) eqn:E; simplify_eq.
    + apply startswith_spec in E as [r E]. exists "", r. by repeat split.
    + destruct (find s sep) as [m|] eqn:F; simplify_eq/=.
      destruct (IH m eq_refl) as (a & b & [-> Hfa] & <-).
      exists (String c a), b. by repeat split.
Qed.

Lemma find_None (s sep : string) : find s sep = None ↔ ¬ contains s sep.
Proof.
  rewrite <- not_contains_spec.
  induction s as [|c s IH]; cbn [find containsb].
  - by destruct (startswith "" sep).
  - destruct (startswith (String c s) sep); simpl; [done |].
    rewrite <- IH. by destruct (find s sep).
Qed.

(** [first_occurrence] names the leftmost occurrence, and every string with
    an occurrence has one. *)
Lemma first_occurrence_least (s sep a b : string) :
  first_occurrence s sep a b →
  ∀ a' b', s = a' +:+ sep +:+ b' → (String.length a ≤ String.length a')%nat.
Proof. intros [_ Hf] a' b' Hs. by eapply find_least. Qed.

Lemma first_occurrence_or_none (s sep : string) :
  ¬ contains s sep ∨ ∃ a b, first_occurrence s sep a b.
Proof.
  destruct (find s sep) as [n|] eqn:Hf.
  - right. destruct (find_Some _ _ _ Hf) as (a & b & H & _). eauto.
  - left. by apply find_None.
Qed.

(** ** [split] *)

Lemma split_go_skip (sep x r : string) :
  split_go sep (String.length x) (x +:+ r) = split_go sep 0 r.
Proof. induction x as [|c x IH]; simpl; auto. Qed.

Lemma split_sep (sep r : string) :
  sep ≠ "" → split (sep +:+ r) sep = "" :: split r sep.
Proof.
  destruct sep as [|c sep]; [done |]. intros _. unfold split.
  change (String c sep +:+ r) with (String c (sep +:+ r)).
  cbn [split_go].
  change (String c (sep +:+ r)) with (String c sep +:+ r).
  rewrite startswith_app.
  replace (String.length (String c sep) - 1) with (String.length sep)
    by (simpl; lia).
  by rewrite split_go_skip.
Qed.

Lemma split_cons (c : ascii) (s sep : string) :
  startswith (String c s) sep = false →
  split (String c s) sep = cons_head c (split s sep).
Proof. intros E. unfold split. cbn [split_go]. by rewrite E. Qed.

Lemma split_not_contains (s sep : string) :
  ¬ contains s sep → split s sep = [s].
Proof.
  induction s as [|c s IH]; intros H; [done |].
  rewrite split_cons.
  - rewrite IH; [done |]. intros H'. by apply H, contains_cons.
  - destruct (startswith (String c s) sep) eqn:E; [| done].
    destruct H. by apply startswith_contains.
Qed.

Lemma split_first_occurrence (s sep a b : string) :
  sep ≠ "" → first_occurrence s sep a b → split s sep = a :: split b sep.
Proof.
  intros Hsep [-> Hf]. induction a as [|c a IH]; simpl in *.
  - by apply split_sep.
  - destruct (startswith (String c (a +:+ sep +:+ b)) sep) eqn:E;
      simplify_eq.
    rewrite split_cons by done.
    destruct (find (a +:+ sep +:+ b) sep) as [m|]; simplify_eq/=.
    by rewrite IH.
Qed.

(** The first piece is an initial part of the string and holds no
    separator. *)
Lemma split_head (s sep : string) :
  sep ≠ "" →
  ∃ h rest t, split s sep = h :: rest ∧ s = h +:+ t ∧ ¬ contains h sep.
Proof.
  intros Hsep. induction s as [|c s (h & rest & t & Hsp & Hs & Hh)].
  - exists "", [], "". repeat split; [].
    by intros ?%contains_nil.
  - destruct (startswith (String c s) sep) eqn:E.
    + apply startswith_spec in E as [r E].
      exists "", (split r sep), (String c s). repeat split.
      * rewrite E. by apply split_sep.
      * by intros ?%contains_nil.
    + exists (String c h), rest, t. repeat split.
      * rewrite split_cons, Hsp; done.
      * by rewrite Hs.
      * intros [H | H]%contains_cons_inv; [| done].
        rewrite (startswith_trans (String c s) (String c h) t sep) in E;
          [done | by rewrite Hs | done].
Qed.

(** A string that does not start with the separator has a non-empty first
    piece. *)
Lemma split_head_nonempty (s sep p : string) (rest : list string) :
  s ≠ "" → startswith s sep = false → split s sep = p :: rest → p ≠ "".
Proof.
  destruct s as [|c s]; [done |]. intros _ E.
  rewrite split_cons by done.
  destruct (split s sep); by intros [= <- _].
Qed.

(** ** Strings without a given character *)

Lemma occurs_contains (c : ascii) (s : string) :
  occurs c s = false ↔ ¬ contains s (String c "").
Proof.
  rewrite <- not_contains_spec.
  induction s as [|a s IH]; cbn [occurs containsb startswith]; [done |].
  destruct (Ascii.eqb c a); simpl; [done |]. by rewrite IH.
Qed.

Lemma occurs_app (c : ascii) (a b : string) :
  occurs c (a +:+ b) = occurs c a || occurs c b.
Proof.
  induction a as [|x a IH]; simpl; [done |].
  by rewrite IH, orb_assoc.
Qed.

(** A separator without [c] that starts [x +:+ c +:+ r] starts [x]. *)
Lemma startswith_app_char (c : ascii) (sep x r : string) :
  occurs c sep = false →
  startswith (x +:+ String c r) sep = true → startswith x sep = true.
Proof.
  revert x. induction sep as [|a sep IH]; intros x Hc H; [done |].
  simpl in Hc. apply orb_false_iff in Hc as [Hca Hc].
  destruct x as [|b x]; simpl in *.
  - rewrite Ascii.eqb_sym, Hca in H. done.
  - destruct (Ascii.eqb a b); [by apply IH | done].
Qed.

(** Splitting passes over a character the separator does not have: the
    text before it, when it holds no separator, stays in the first piece. *)
Lemma split_app_char (c : ascii) (sep x r h : string) (rest : list string) :
  occurs c sep = false → sep ≠ "" → ¬ contains x sep →
  split r sep = h :: rest →
  split (x +:+ String c r) sep = (x +:+ String c h) :: rest.
Proof.
  intros Hc Hsep Hx Hr. induction x as [|a x IH]; simpl.
  - rewrite split_cons, Hr; [done |].
    destruct sep as [|b sep]; [done |]. simpl in *.
    apply orb_false_iff in Hc as [Hc _]. by rewrite Ascii.eqb_sym, Hc.
  - rewrite split_cons.
    + rewrite IH; [done |]. intros H. by apply Hx, contains_cons.
    + destruct (startswith (String a (x +:+ String c r)) sep) eqn:E; [| done].
      destruct Hx. apply startswith_contains.
      by apply (startswith_app_char c sep (String a x) r).
Qed.

(** Splitting on a single character. *)
Lemma split_char_app (c : ascii) (x r : string) :
  occurs c x = false →
  split (x +:+ String c r) (String c "") = x :: split r (String c "").
Proof.
  intros Hx. induction x as [|a x IH]; simpl in *.
  - by apply (split_sep (String c "") r).
  - apply orb_false_iff in Hx as [Hca Hx].
    rewrite split_cons by (simpl; by rewrite Hca).
    by rewrite IH.
Qed.

Lemma split_char_none (c : ascii) (x : string) :
  occurs c x = false → split x (String c "") = [x].
Proof. intros H. by apply split_not_contains, occurs_contains. Qed.

Lemma split_join (c : ascii) (segs : list string) :
  segs ≠ [] → Forall (λ s, occurs c s = false) segs →
  split (join (String c "") segs) (String c "") = segs.
Proof.
  intros Hne Hall. induction Hall as [|x l Hx Hl IH]; [done |].
  destruct l as [|y l]; simpl.
  - by apply split_char_none.
  - rewrite split_char_app by done. f_equal. by apply IH.
Qed.

(** ** Joined segments hold no doubled separator *)

Lemma no_double_app (c : ascii) (x t : string) :
  x ≠ "" → occurs c x = false →
  startswith t (String c "") = false →
  ¬ contains t (String c (String c "")) →
  ¬ contains (x +:+ String c t) (String c (String c "")).
Proof.
  intros Hne Hx Hs Ht. induction x as [|a x IH]; [done |]. simpl in *.
  apply orb_false_iff in Hx as [Hca Hx].
  intros [H | H]%contains_cons_inv.
  - simpl in H. by rewrite Hca in H.
  - destruct x as [|b x].
    + simpl in H. apply contains_cons_inv in H as [H | H]; [| done].
      simpl in H, Hs. rewrite Ascii.eqb_refl in H.
      destruct t as [|d t]; [done |].
      destruct (Ascii.eqb c d); done.
    + by apply IH.
Qed.

Lemma contains_double (c : ascii) (s : string) :
  contains s (String c (String c "")) → occurs c s = true.
Proof.
  intros (a & b & ->). rewrite occurs_app. simpl.
  rewrite Ascii.eqb_refl. by rewrite orb_true_r.
Qed.

Lemma join_no_double (c : ascii) (segs : list string) :
  Forall (λ s, s ≠ "" ∧ occurs c s = false) segs →
  ¬ contains (join (String c "") segs) (String c (String c "")) ∧
  (segs ≠ [] → startswith (join (String c "") segs) (String c "") = false).
Proof.
  induction 1 as [|x l [Hne Hx] Hl [IH1 IH2]].
  - split; [by intros ?%contains_nil | done].
  - destruct l as [|y l]; simpl.
    + split.
      * intros H%contains_double. congruence.
      * intros _. destruct x as [|a x]; [done |]. simpl in *.
        apply orb_false_iff in Hx as [-> _]. done.
    + split.
      * apply no_double_app; auto.
      * intros _. destruct x as [|a x]; [done |]. simpl in *.
        apply orb_false_iff in Hx as [-> _]. done.
Qed.

(** ** Splitting joined segments on a separator that has no joining
    character *)

Lemma join_cons (sep x : string) (l : list string) :
  l ≠ [] → join sep (x :: l) = x +:+ sep +:+ join sep l.
Proof. by destruct l. Qed.

Lemma join_snoc_app (sep x y : string) (l : list string) :
  join sep (l ++ [x +:+ y]) = join sep (l ++ [x]) +:+ y.
Proof.
  induction l as [|z l IH]; [done |].
  change ((z :: l) ++ [x +:+ y])%list with (z :: (l ++ [x +:+ y]))%list.
  change ((z :: l) ++ [x])%list with (z :: (l ++ [x]))%list.
  rewrite !join_cons by (by destruct l).
  by rewrite IH, !app_assoc.
Qed.

Lemma split_join_snoc (c : ascii) (sep last h : string)
    (l rest : list string) :
  occurs c sep = false → sep ≠ "" →
  Forall (λ s, ¬ contains s sep) l →
  split last sep = h :: rest →
  split (join (String c "") (l ++ [last])) sep
  = join (String c "") (l ++ [h]) :: rest.
Proof.
  intros Hc Hsep Hl Hlast. induction Hl as [|x l Hx Hl IH]; [done |].
  change ((x :: l) ++ [last])%list with (x :: (l ++ [last]))%list.
  change ((x :: l) ++ [h])%list with (x :: (l ++ [h]))%list.
  rewrite !join_cons by (by destruct l).
  by apply split_app_char.
Qed.

End StrFacts.

(** * The runs of the parser *)

Section Runs.

Variable render : list exn → string.

Implicit Types (fp : string) (handling : list exn) (segs : list string).

Ltac run_body :=
  unfold parse_ae_ren_data, parse_ae_ren_data_body, try_except_return,
    try_block, except_block, format_exc, getitem, getitem_dict,
    get_filepath, set_filepath, raise, mbind, M_bind, mret, M_ret;
  simpl.

Lemma segments_of_Some fp segs :
  segments_of fp = Some segs ↔
  ∃ remainder,
    Str.split fp root_prefix !! 1 = Some remainder ∧
    segs = Str.split remainder "/".
Proof.
  unfold segments_of.
  destruct (Str.split fp root_prefix !! 1) as [r|]; simpl; split.
  - intros [= <-]. by exists r.
  - by intros (? & [= <-] & ->).
  - done.
  - by intros (? & ? & _).
Qed.

Lemma segments_of_None fp :
  segments_of fp = None ↔ Str.split fp root_prefix !! 1 = None.
Proof.
  unfold segments_of.
  by destruct (Str.split fp root_prefix !! 1) as [r|].
Qed.

Lemma unpack8_bad segs st :
  length segs ≠ 8 → unpack8 segs st = (inl (ValueError (length segs)), st).
Proof.
  intros H. unfold unpack8.
  do 9 (destruct segs as [|? segs]; [try done |]); done.
Qed.

(** No second piece after splitting on the root prefix: [IndexError],
    caught. *)
Lemma parse_no_segments fp handling :
  segments_of fp = None →
  parse_ae_ren_data render fp handling
  = (inr (ParseFailure fp (render (IndexError :: handling))), handling).
Proof.
  intros H%segments_of_None. run_body. by rewrite H.
Qed.

(** A number of segments other than eight: [ValueError], caught. *)
Lemma parse_bad_count fp handling segs :
  segments_of fp = Some segs → length segs ≠ 8 →
  parse_ae_ren_data render fp handling
  = (inr (ParseFailure fp (render (ValueError (length segs) :: handling))),
     handling).
Proof.
  intros (r & Hr & ->)%segments_of_Some Hlen. run_body. rewrite Hr.
  by rewrite unpack8_bad.
Qed.

(** Eight segments and a token the dict does not have: [KeyError], raised
    after the [try] statement. *)
Lemma parse_unknown fp handling s1 s2 s3 s4 s5 s6 s7 s8 :
  segments_of fp = Some [s1; s2; s3; s4; s5; s6; s7; s8] →
  simulation_dict !! s3 = None →
  parse_ae_ren_data render fp handling = (inl (KeyError s3), handling).
Proof.
  intros (r & Hr & Hs)%segments_of_Some Hk. run_body. rewrite Hr, <- Hs.
  simpl. destruct (StrFacts.split_head fp zmetadata) as (h & rest & t & -> & _);
    [done |].
  simpl. by rewrite Hk.
Qed.

(** Eight segments and a token of the dict: the catalog record. *)
Lemma parse_known fp handling s1 s2 s3 s4 s5 s6 s7 s8 canonical :
  segments_of fp = Some [s1; s2; s3; s4; s5; s6; s7; s8] →
  simulation_dict !! s3 = Some canonical →
  ∃ p rest,
    Str.split fp zmetadata = p :: rest ∧
    parse_ae_ren_data render fp handling
    = (inr (CatalogRecord {|
              installation := s2;
              activity_id := "WRF";
              institution_id := "ERA";
              source_id := canonical;
              experiment_id := s4;
              table_id := s5;
              variable_id := s6;
              grid_label := s7;
              path := p |}), handling).
Proof.
  intros (r & Hr & Hs)%segments_of_Some Hk.
  destruct (StrFacts.split_head fp zmetadata) as (h & rest & t & Hh & _);
    [done |].
  exists h, rest. split; [done |].
  run_body. rewrite Hr, <- Hs. simpl. rewrite Hh. simpl. by rewrite Hk.
Qed.

(** Every run is one of the four above. *)
Lemma parse_cases fp handling :
  (segments_of fp = None) ∨
  (∃ segs, segments_of fp = Some segs ∧ length segs ≠ 8) ∨
  (∃ s1 s2 s3 s4 s5 s6 s7 s8,
     segments_of fp = Some [s1; s2; s3; s4; s5; s6; s7; s8] ∧
     (simulation_dict !! s3 = None ∨ is_Some (simulation_dict !! s3))).
Proof.
  destruct (segments_of fp) as [segs|] eqn:E; [| by left].
  right. destruct (decide (length segs = 8)) as [Hlen | Hlen].
  - right.
    do 9 (destruct segs as [|? segs]; [try done |]); [| done].
    do 8 eexists. split; [done |].
    match goal with |- ?x = None ∨ _ => destruct x end; eauto.
  - left. eauto.
Qed.

(** A returned catalog record comes from eight segments and a known token. *)
Lemma parse_record_inv fp handling r :
  (parse_ae_ren_data render fp handling).1 = inr (CatalogRecord r) →
  ∃ s1 s2 s3 s4 s5 s6 s7 s8 rest,
    segments_of fp = Some [s1; s2; s3; s4; s5; s6; s7; s8] ∧
    simulation_dict !! s3 = Some (source_id r) ∧
    Str.split fp zmetadata = path r :: rest ∧
    r = {| installation := s2;
           activity_id := "WRF";
           institution_id := "ERA";
           source_id := source_id r;
           experiment_id := s4;
           table_id := s5;
           variable_id := s6;
           grid_label := s7;
           path := path r |}.
Proof.
  intros H.
  destruct (parse_cases fp handling)
    as [E | [(segs & E & Hlen) | (s1 & s2 & s3 & s4 & s5 & s6 & s7 & s8 & E & [Hk | [c Hk]])]].
  - rewrite (parse_no_segments _ _ E) in H. done.
  - rewrite (parse_bad_count _ _ _ E Hlen) in H. done.
  - rewrite (parse_unknown _ _ _ _ _ _ _ _ _ _ E Hk) in H. done.
  - destruct (parse_known _ handling _ _ _ _ _ _ _ _ _ E Hk) as (p & rest & Hp & Hr).
    rewrite Hr in H. simpl in H. injection H as <-. simpl.
    exists s1, s2, s3, s4, s5, s6, s7, s8, rest. done.
Qed.

(** The only exception that leaves the parser is the [KeyError] of the
    lookup. *)
Lemma parse_raises_inv fp handling e :
  (parse_ae_ren_data render fp handling).1 = inl e →
  ∃ s1 s2 s3 s4 s5 s6 s7 s8,
    segments_of fp = Some [s1; s2; s3; s4; s5; s6; s7; s8] ∧
    simulation_dict !! s3 = None ∧
    e = KeyError s3.
Proof.
  intros H.
  destruct (parse_cases fp handling)
    as [E | [(segs & E & Hlen)
          | (s1 & s2 & s3 & s4 & s5 & s6 & s7 & s8 & E & [Hk | [c Hk]])]].
  - rewrite (parse_no_segments _ _ E) in H. done.
  - rewrite (parse_bad_count _ _ _ E Hlen) in H. done.
  - rewrite (parse_unknown _ _ _ _ _ _ _ _ _ _ E Hk) in H.
    injection H as <-. by exists s1, s2, s3, s4, s5, s6, s7, s8.
  - destruct (parse_known _ handling _ _ _ _ _ _ _ _ _ E Hk)
      as (p & rest & _ & Hr).
    rewrite Hr in H. done.
Qed.

End Runs.

(** * Paths built from segments *)

Lemma plain_segment_occurs (s : string) :
  plain_segment s → s ≠ "" ∧ Str.occurs "/" s = false.
Proof. intros [? ?]. split; [done |]. by apply StrFacts.occurs_contains. Qed.

(** The root prefix holds a doubled separator, joined plain segments do
    not. *)
Lemma join_no_root_prefix (segs : list string) :
  Forall plain_segment segs →
  ¬ Str.contains (Str.join "/" segs) root_prefix.
Proof.
  intros Hall (a & b & H).
  assert (Hd : Forall (λ s, s ≠ "" ∧ Str.occurs "/" s = false) segs).
  { eapply Forall_impl; [done |]. apply plain_segment_occurs. }
  apply (StrFacts.join_no_double "/") in Hd as [Hd _]. apply Hd.
  exists (a +:+ "s3:"), ("wfclimres/" +:+ b).
  rewrite H, StrFacts.app_assoc. done.
Qed.

Lemma segments_of_join (segs : list string) :
  segs ≠ [] → Forall plain_segment segs →
  segments_of (root_prefix +:+ Str.join "/" segs) = Some segs.
Proof.
  intros Hne Hall. unfold segments_of.
  rewrite StrFacts.split_sep by done.
  rewrite StrFacts.split_not_contains by by apply join_no_root_prefix.
  simpl. f_equal. apply (StrFacts.split_join "/"); [done |].
  eapply Forall_impl; [done |]. intros s Hs.
  by apply plain_segment_occurs.
Qed.

(** The remainder the parser takes is the text after the first occurrence
    of the root prefix when the prefix does not occur again. *)
Lemma segments_of_first_occurrence (fp a b : string) :
  Str.first_occurrence fp root_prefix a b →
  ¬ Str.contains b root_prefix →
  segments_of fp = Some (Str.split b "/").
Proof.
  intros Hfirst Hno. unfold segments_of.
  rewrite (StrFacts.split_first_occurrence fp root_prefix a b) by done.
  by rewrite StrFacts.split_not_contains.
Qed.

(** When it occurs again, the remainder stops there. *)
Example second_prefix_ends_remainder :
  segments_of "s3://wfclimres/a/b/ec-earth3/d/e/f/g/s3://wfclimres/x"
  = Some ["a"; "b"; "ec-earth3"; "d"; "e"; "f"; "g"; ""].
Proof. by vm_compute. Qed.

(** What the first piece of [filepath.split(".zmetadata")] is. *)
Lemma stripped_spec (fp p : string) (rest : list string) :
  Str.split fp zmetadata = p :: rest →
  (¬ Str.contains fp zmetadata → p = fp) ∧
  (∀ a b, Str.first_occurrence fp zmetadata a b → p = a).
Proof.
  intros Hp. split.
  - intros H. rewrite StrFacts.split_not_contains in Hp by done.
    by injection Hp.
  - intros a b H.
    rewrite (StrFacts.split_first_occurrence _ _ a b) in Hp by done.
    by injection Hp.
Qed.

(** The values of the dict. *)
Lemma simulation_dict_Some (k v : string) :
  simulation_dict !! k = Some v →
  (k, v) ∈ [("ec-earth3", "EC-Earth3"); ("mpi-esm1-2-hr", "MPI-ESM1-2-HR");
            ("miroc6", "MIROC6"); ("taiesm1", "TaiESM1"); ("era5", "ERA5")].
Proof. apply elem_of_list_to_map_2. Qed.

Lemma simulation_dict_canonical (k v : string) :
  simulation_dict !! k = Some v →
  v ∈ ["EC-Earth3"; "MPI-ESM1-2-HR"; "MIROC6"; "TaiESM1"; "ERA5"] ∧
  v ≠ k ∧ v ≠ "".
Proof.
  intros H%simulation_dict_Some.
  repeat (apply elem_of_cons in H as [[= -> ->] | H];
          [split; [set_solver | done] |]).
  by apply elem_of_nil in H.
Qed.

(** * The claims *)

(** C1. The claim says that the parser never raises and returns a parse
    failure record for a simulation token the lookup table does not have. The
    lookup stands after the [try] statement: on the claim's own path, eight
    segments with the token [unknown-model-x], the call raises [KeyError] and
    returns no record. *)
Theorem C1_unknown_simulation_raises (render : list exn → string)
    (handling : list exn) :
  segments_of unknown_model_path
  = Some ["ERA"; "pv_distributed"; "unknown-model-x"; "historical"; "1hr";
          "cf"; "d03"; ".zmetadata"] ∧
  simulation_dict !! "unknown-model-x" = None ∧
  parse_ae_ren_data render unknown_model_path handling
  = (inl (KeyError "unknown-model-x"), handling).
Proof.
  assert (H : segments_of unknown_model_path
              = Some ["ERA"; "pv_distributed"; "unknown-model-x";
                      "historical"; "1hr"; "cf"; "d03"; ".zmetadata"])
    by by vm_compute.
  assert (K : simulation_dict !! "unknown-model-x" = None) by by vm_compute.
  split; [done |]. split; [done |]. by eapply parse_unknown.
Qed.

(** The example of the docstring has the token in its canonical spelling,
    which is no key of the dict: the call raises too. *)
Example docstring_example_raises (render : list exn → string)
    (handling : list exn) :
  parse_ae_ren_data render docstring_path handling
  = (inl (KeyError "EC-Earth3"), handling).
Proof.
  eapply parse_unknown; by vm_compute.
Qed.

(** C2, as the spec states it, fails: the first segment after the root
    prefix is not the installation attribute. On the guide's path the first
    segment is [ERA] and the record's installation is [pv_distributed], the
    second segment. *)
Lemma C2_installation_is_not_first_segment :
  ¬ (∀ (render : list exn → string) fp handling segs r,
       (parse_ae_ren_data render fp handling).1 = inr (CatalogRecord r) →
       segments_of fp = Some segs →
       segs !! 0 = Some (installation r)).
Proof.
  intros H.
  specialize (H chain_names guide_path []
    ["ERA"; "pv_distributed"; "ec-earth3"; "historical"; "1hr"; "cf"; "d03";
     ".zmetadata"]
    (MkInfo "pv_distributed" "WRF" "ERA" "EC-Earth3" "historical" "1hr" "cf"
       "d03" "s3://wfclimres/ERA/pv_distributed/ec-earth3/historical/1hr/cf/d03/")).
  assert (E : ["ERA"; "pv_distributed"] !! 0 = Some "pv_distributed");
    [| discriminate E].
  apply H; by vm_compute.
Qed.

(** C2, amended. For every path on which the parser returns a catalog record,
    the path has eight segments after the root prefix; [activity_id] and
    [institution_id] are the constants [WRF] and [ERA] whatever the segments
    are; [installation] is the second segment, [source_id] the lookup
    table's value for the third, and [experiment_id], [table_id],
    [variable_id] and [grid_label] are the fourth to seventh segments
    verbatim. The first segment, the path's institution, is the value of
    none of these attributes. *)
Theorem C2_fields_from_segments (render : list exn → string) (fp : string)
    (handling : list exn) (r : info) :
  (parse_ae_ren_data render fp handling).1 = inr (CatalogRecord r) →
  ∃ s1 s2 s3 s4 s5 s6 s7 s8,
    segments_of fp = Some [s1; s2; s3; s4; s5; s6; s7; s8] ∧
    activity_id r = "WRF" ∧
    institution_id r = "ERA" ∧
    installation r = s2 ∧
    simulation_dict !! s3 = Some (source_id r) ∧
    experiment_id r = s4 ∧
    table_id r = s5 ∧
    variable_id r = s6 ∧
    grid_label r = s7.
Proof.
  intros H.
  destruct (parse_record_inv _ _ _ _ H)
    as (s1 & s2 & s3 & s4 & s5 & s6 & s7 & s8 & rest & Hs & Hk & _ & Hr).
  exists s1, s2, s3, s4, s5, s6, s7, s8. rewrite Hr. done.
Qed.

Lemma C2_fields_from_segments_witness :
  ∃ s1 s2 s3 s4 s5 s6 s7 s8,
    segments_of guide_path = Some [s1; s2; s3; s4; s5; s6; s7; s8] ∧
    "WRF" = "WRF" ∧ "ERA" = "ERA" ∧
    "pv_distributed" = s2 ∧
    simulation_dict !! s3 = Some "EC-Earth3" ∧
    "historical" = s4 ∧ "1hr" = s5 ∧ "cf" = s6 ∧ "d03" = s7.
Proof.
  apply (C2_fields_from_segments chain_names guide_path []
    (MkInfo "pv_distributed" "WRF" "ERA" "EC-Earth3" "historical" "1hr" "cf"
       "d03" "s3://wfclimres/ERA/pv_distributed/ec-earth3/historical/1hr/cf/d03/")).
  vm_compute. reflexivity.
Defined.

(** C3, as the spec states it, fails twice. Eight segments of which the
    second is empty, the third a key of the table: the record's installation
    is the empty string. Eight segments that are not empty, of which the
    sixth holds [.zmetadata]: the record's path stops before that
    occurrence and is not the input without its terminal file name. *)
Lemma C3_empty_field_and_early_cut :
  (∃ r,
     (parse_ae_ren_data chain_names
        (root_prefix +:+
         Str.join "/" ["ERA"; ""; "ec-earth3"; "historical"; "1hr"; "cf";
                       "d03"; ".zmetadata"]) []).1
     = inr (CatalogRecord r) ∧
     installation r = "") ∧
  (∃ r,
     (parse_ae_ren_data chain_names
        (root_prefix +:+
         Str.join "/" ["ERA"; "pv_distributed"; "ec-earth3"; "historical";
                       "1hr"; "cf.zmetadata"; "d03"; ".zmetadata"]) []).1
     = inr (CatalogRecord r) ∧
     path r = "s3://wfclimres/ERA/pv_distributed/ec-earth3/historical/1hr/cf" ∧
     path r ≠ root_prefix +:+
              Str.join "/" ["ERA"; "pv_distributed"; "ec-earth3";
                            "historical"; "1hr"; "cf.zmetadata"; "d03"; ""]).
Proof.
  split; eexists; (split; [by vm_compute |]); [done |].
  split; [done | by vm_compute].
Qed.

(** C3, amended. For every path made of the root prefix and eight segments
    joined by [/], each segment not empty and without [/], the third a key
    of the lookup table: parsing returns a catalog record; its nine fields
    are non-empty strings; the path field is the input cut at its first
    occurrence of [.zmetadata] (the whole input when there is none); and
    when the eighth segment is [.zmetadata] and no earlier segment holds
    [.zmetadata], the path field is the input without that terminal file
    name. *)
Theorem C3_plain_segments_parse (render : list exn → string)
    (handling : list exn) (s1 s2 s3 s4 s5 s6 s7 s8 canonical : string) :
  Forall plain_segment [s1; s2; s3; s4; s5; s6; s7; s8] →
  simulation_dict !! s3 = Some canonical →
  let fp := root_prefix +:+ Str.join "/" [s1; s2; s3; s4; s5; s6; s7; s8] in
  ∃ p,
    (parse_ae_ren_data render fp handling).1
    = inr (CatalogRecord {|
             installation := s2;
             activity_id := "WRF";
             institution_id := "ERA";
             source_id := canonical;
             experiment_id := s4;
             table_id := s5;
             variable_id := s6;
             grid_label := s7;
             path := p |}) ∧
    Forall (λ v, v ≠ "") [s2; "WRF"; "ERA"; canonical; s4; s5; s6; s7; p] ∧
    (¬ Str.contains fp zmetadata → p = fp) ∧
    (∀ a b, Str.first_occurrence fp zmetadata a b → p = a) ∧
    (s8 = zmetadata →
     Forall (λ s, ¬ Str.contains s zmetadata) [s1; s2; s3; s4; s5; s6; s7] →
     fp = p +:+ zmetadata).
Proof.
  intros Hall Hk fp.
  assert (Hseg : segments_of fp = Some [s1; s2; s3; s4; s5; s6; s7; s8])
    by by apply segments_of_join.
  destruct (parse_known render fp handling _ _ _ _ _ _ _ _ _ Hseg Hk)
    as (p & rest & Hp & Hr).
  exists p. rewrite Hr. split; [done |].
  destruct (stripped_spec fp p rest Hp) as [Hnone Hfirst].
  split; [| split; [done | split; [done |]]].
  - assert (p ≠ "").
    { by apply (StrFacts.split_head_nonempty fp zmetadata p rest). }
    apply simulation_dict_canonical in Hk as (_ & _ & ?).
    repeat (apply Forall_cons in Hall as [[? _] Hall]).
    repeat (apply Forall_cons; split; [done |]). done.
  - intros -> Hz.
    assert (Hsp : Str.split fp zmetadata
                  = Str.join "/" (["s3:"; ""; "wfclimres"; s1; s2; s3; s4;
                                   s5; s6; s7] ++ [""]) :: [""]).
    { change fp with (Str.join "/" (["s3:"; ""; "wfclimres"; s1; s2; s3; s4;
                                     s5; s6; s7] ++ [zmetadata])).
      apply (StrFacts.split_join_snoc "/" zmetadata zmetadata "" _ [""]);
        [done | done | | by vm_compute].
      repeat (apply Forall_cons; split;
              [by apply StrFacts.not_contains_spec |]).
      done. }
    rewrite Hsp in Hp. injection Hp as <- _.
    exact (StrFacts.join_snoc_app "/" "" zmetadata
             ["s3:"; ""; "wfclimres"; s1; s2; s3; s4; s5; s6; s7]).
Qed.

Lemma C3_plain_segments_parse_witness :
  ∃ p,
    (parse_ae_ren_data chain_names guide_path []).1
    = inr (CatalogRecord (MkInfo "pv_distributed" "WRF" "ERA" "EC-Earth3"
                            "historical" "1hr" "cf" "d03" p)) ∧
    Forall (λ v, v ≠ "")
      ["pv_distributed"; "WRF"; "ERA"; "EC-Earth3"; "historical"; "1hr";
       "cf"; "d03"; p] ∧
    (¬ Str.contains guide_path zmetadata → p = guide_path) ∧
    (∀ a b, Str.first_occurrence guide_path zmetadata a b → p = a) ∧
    (zmetadata = zmetadata →
     Forall (λ s, ¬ Str.contains s zmetadata)
       ["ERA"; "pv_distributed"; "ec-earth3"; "historical"; "1hr"; "cf";
        "d03"] →
     guide_path = p +:+ zmetadata).
Proof.
  apply (C3_plain_segments_parse chain_names []
           "ERA" "pv_distributed" "ec-earth3" "historical" "1hr" "cf" "d03"
           zmetadata "EC-Earth3").
  - repeat (apply Forall_cons; split;
            [split; [done | by apply StrFacts.not_contains_spec] |]).
    apply Forall_nil_2.
  - vm_compute. reflexivity.
Defined.

(** C4, as the spec states it, fails on a path that holds the root prefix
    twice: in [double_prefix_path] the text after the root prefix splits
    into eleven segments, and the parser returns a catalog record. The
    piece it takes, [filepath.split("s3://wfclimres/")[1]], stops at the
    next occurrence of the prefix and has eight segments. *)
Lemma C4_second_prefix_gives_record :
  ¬ (∀ (render : list exn → string) fp handling a b,
       Str.first_occurrence fp root_prefix a b →
       length (Str.split b "/") ≠ 8 →
       ∃ tb,
         (parse_ae_ren_data render fp handling).1
         = inr (ParseFailure fp tb)).
Proof.
  intros H.
  destruct (H chain_names double_prefix_path [] ""
              "a/b/ec-earth3/d/e/f/g/s3://wfclimres/x") as [tb Htb].
  - split; by vm_compute.
  - vm_compute. lia.
  - vm_compute in Htb. discriminate Htb.
Qed.

(** C4, amended. For every path that does not contain the root prefix, and
    for every path in which the piece after the first occurrence of the root
    prefix, up to its next occurrence if there is one
    ([filepath.split("s3://wfclimres/")[1]]; the whole remainder when the
    prefix occurs once), splits on [/] into a number of segments other than
    eight, the parser returns a parse failure record whose invalid-asset
    field is the input path unchanged. *)
Theorem C4_malformed_path_fails (render : list exn → string) (fp : string)
    (handling : list exn) :
  ¬ Str.contains fp root_prefix ∨
  (∃ segs, segments_of fp = Some segs ∧ length segs ≠ 8) ∨
  (∃ a b, Str.first_occurrence fp root_prefix a b ∧
          ¬ Str.contains b root_prefix ∧
          length (Str.split b "/") ≠ 8) →
  ∃ e,
    (parse_ae_ren_data render fp handling).1
    = inr (ParseFailure fp (render (e :: handling))).
Proof.
  intros [Hno | [(segs & Hs & Hlen) | (a & b & Hfirst & Hb & Hlen)]].
  - exists IndexError. rewrite parse_no_segments; [done |].
    apply segments_of_None. by rewrite StrFacts.split_not_contains.
  - exists (ValueError (length segs)). by rewrite (parse_bad_count _ _ _ segs).
  - exists (ValueError (length (Str.split b "/"))).
    rewrite (parse_bad_count _ _ _ (Str.split b "/")); [done | | done].
    by apply (segments_of_first_occurrence fp a b).
Qed.

Lemma C4_malformed_path_fails_witness :
  (∃ segs, segments_of five_segment_path = Some segs ∧ length segs = 5) ∧
  (∃ e, (parse_ae_ren_data chain_names five_segment_path []).1
        = inr (ParseFailure five_segment_path (chain_names [e]))) ∧
  ¬ Str.contains "ERA/pv_distributed/ec-earth3/historical/1hr/cf/d03/.zmetadata"
      root_prefix ∧
  (∃ e, (parse_ae_ren_data chain_names
           "ERA/pv_distributed/ec-earth3/historical/1hr/cf/d03/.zmetadata"
           []).1
        = inr (ParseFailure
                 "ERA/pv_distributed/ec-earth3/historical/1hr/cf/d03/.zmetadata"
                 (chain_names [e]))).
Proof.
  split; [eexists; split; vm_compute; reflexivity |].
  split.
  { apply (C4_malformed_path_fails chain_names five_segment_path []).
    right. left. eexists. split; [vm_compute; reflexivity | vm_compute; lia]. }
  split.
  { apply StrFacts.not_contains_spec. vm_compute. reflexivity. }
  apply (C4_malformed_path_fails chain_names
           "ERA/pv_distributed/ec-earth3/historical/1hr/cf/d03/.zmetadata"
           []).
  left. apply StrFacts.not_contains_spec. vm_compute. reflexivity.
Defined.

(** C5. For every input on which the parser returns a catalog record, the
    record's [source_id] is one of the five canonical names of the lookup
    table; it is the table's value for the third segment of the path, and
    differs from that raw token. *)
Theorem C5_source_id_canonical (render : list exn → string) (fp : string)
    (handling : list exn) (r : info) :
  (parse_ae_ren_data render fp handling).1 = inr (CatalogRecord r) →
  source_id r ∈ ["EC-Earth3"; "MPI-ESM1-2-HR"; "MIROC6"; "TaiESM1"; "ERA5"] ∧
  ∃ segs token,
    segments_of fp = Some segs ∧
    segs !! 2 = Some token ∧
    simulation_dict !! token = Some (source_id r) ∧
    source_id r ≠ token.
Proof.
  intros H.
  destruct (parse_record_inv _ _ _ _ H)
    as (s1 & s2 & s3 & s4 & s5 & s6 & s7 & s8 & rest & Hs & Hk & _ & _).
  destruct (simulation_dict_canonical _ _ Hk) as (Hin & Hne & _).
  split; [done |]. by exists [s1; s2; s3; s4; s5; s6; s7; s8], s3.
Qed.

Lemma C5_source_id_canonical_witness :
  "EC-Earth3" ∈ ["EC-Earth3"; "MPI-ESM1-2-HR"; "MIROC6"; "TaiESM1"; "ERA5"] ∧
  ∃ segs token,
    segments_of guide_path = Some segs ∧
    segs !! 2 = Some token ∧
    simulation_dict !! token = Some "EC-Earth3" ∧
    "EC-Earth3" ≠ token.
Proof.
  apply (C5_source_id_canonical chain_names guide_path []
    (MkInfo "pv_distributed" "WRF" "ERA" "EC-Earth3" "historical" "1hr" "cf"
       "d03" "s3://wfclimres/ERA/pv_distributed/ec-earth3/historical/1hr/cf/d03/")).
  vm_compute. reflexivity.
Defined.

(** C6. Parsing
    [s3://wfclimres/ERA/pv_distributed/ec-earth3/historical/1hr/cf/d03/.zmetadata]
    returns a catalog record with [source_id = EC-Earth3], not the raw
    [ec-earth3], [installation = pv_distributed],
    [experiment_id = historical], [table_id = 1hr], [variable_id = cf],
    [grid_label = d03], and a path that is the input without the terminal
    file name [.zmetadata]. *)
Theorem C6_guide_path_record (render : list exn → string)
    (handling : list exn) :
  ∃ r,
    (parse_ae_ren_data render guide_path handling).1
    = inr (CatalogRecord r) ∧
    source_id r = "EC-Earth3" ∧
    source_id r ≠ "ec-earth3" ∧
    installation r = "pv_distributed" ∧
    experiment_id r = "historical" ∧
    table_id r = "1hr" ∧
    variable_id r = "cf" ∧
    grid_label r = "d03" ∧
    guide_path = path r +:+ ".zmetadata" ∧
    path r
    = "s3://wfclimres/ERA/pv_distributed/ec-earth3/historical/1hr/cf/d03/".
Proof.
  eexists. split; [by vm_compute |]. by repeat split.
Qed.

(** C7. For every input on which the parser returns a catalog record, the
    record's path does not end with [.zmetadata]. *)
Theorem C7_path_without_suffix (render : list exn → string) (fp : string)
    (handling : list exn) (r : info) :
  (parse_ae_ren_data render fp handling).1 = inr (CatalogRecord r) →
  Str.endswith (path r) zmetadata = false.
Proof.
  intros H.
  destruct (parse_record_inv _ _ _ _ H)
    as (s1 & s2 & s3 & s4 & s5 & s6 & s7 & s8 & rest & _ & _ & Hp & _).
  destruct (StrFacts.split_head fp zmetadata) as (h & rest' & t & Hh & _ & Hno);
    [done |].
  rewrite Hp in Hh. injection Hh as -> _.
  destruct (Str.endswith h zmetadata) eqn:E; [| done].
  destruct Hno. by apply StrFacts.endswith_contains.
Qed.

Lemma C7_path_without_suffix_witness :
  Str.endswith
    "s3://wfclimres/ERA/pv_distributed/ec-earth3/historical/1hr/cf/d03/"
    zmetadata = false.
Proof.
  apply (C7_path_without_suffix chain_names guide_path []
    (MkInfo "pv_distributed" "WRF" "ERA" "EC-Earth3" "historical" "1hr" "cf"
       "d03" "s3://wfclimres/ERA/pv_distributed/ec-earth3/historical/1hr/cf/d03/")).
  vm_compute. reflexivity.
Defined.



(** C9. The root prefix is found by splitting on it, not by matching the
    start of the path: [junk_path] does not start with the root prefix, its
    first occurrence of the prefix comes after [junk-], parsing returns a
    catalog record, and the record's fields are the segments of the text
    after that occurrence. *)
Theorem C9_prefix_not_anchored (render : list exn → string)
    (handling : list exn) :
  Str.startswith junk_path root_prefix = false ∧
  Str.first_occurrence junk_path root_prefix "junk-"
    (Str.join "/" ["era"; "pv_distributed"; "ec-earth3"; "historical"; "1hr";
                   "cf"; "d03"; ".zmetadata"]) ∧
  (parse_ae_ren_data render junk_path handling).1
  = inr (CatalogRecord {|
           installation := "pv_distributed";
           activity_id := "WRF";
           institution_id := "ERA";
           source_id := "EC-Earth3";
           experiment_id := "historical";
           table_id := "1hr";
           variable_id := "cf";
           grid_label := "d03";
           path := "junk-s3://wfclimres/era/pv_distributed/ec-earth3/historical/1hr/cf/d03/" |}).
Proof.
  split; [done |]. split; [by split |]. by vm_compute.
Qed.

(** C10. The parser does not look at the eighth segment: for every path
    whose remainder after the root prefix splits into eight segments, the
    third a key of the lookup table, parsing returns a catalog record
    whatever the eighth segment is; when [.zmetadata] does not occur in the
    input the path field is the input unchanged, and when it occurs the path
    field is the input cut at the first occurrence of [.zmetadata]. *)
Theorem C10_terminal_segment_ignored (render : list exn → string) (fp : string)
    (handling : list exn) (s1 s2 s3 s4 s5 s6 s7 s8 canonical : string) :
  segments_of fp = Some [s1; s2; s3; s4; s5; s6; s7; s8] →
  simulation_dict !! s3 = Some canonical →
  ∃ p,
    (parse_ae_ren_data render fp handling).1
    = inr (CatalogRecord {|
             installation := s2;
             activity_id := "WRF";
             institution_id := "ERA";
             source_id := canonical;
             experiment_id := s4;
             table_id := s5;
             variable_id := s6;
             grid_label := s7;
             path := p |}) ∧
    (¬ Str.contains fp zmetadata → p = fp) ∧
    (∀ a b, Str.first_occurrence fp zmetadata a b → p = a).
Proof.
  intros Hs Hk.
  destruct (parse_known render fp handling _ _ _ _ _ _ _ _ _ Hs Hk)
    as (p & rest & Hp & ->).
  exists p. split; [done |]. by apply (stripped_spec fp p rest).
Qed.

Lemma C10_terminal_segment_ignored_witness :
  (parse_ae_ren_data chain_names netcdf_path []).1
  = inr (CatalogRecord (MkInfo "pv_distributed" "WRF" "ERA" "EC-Earth3"
                          "historical" "1hr" "cf" "d03" netcdf_path)) ∧
  (parse_ae_ren_data chain_names early_zmetadata_path []).1
  = inr (CatalogRecord
           (MkInfo "pv_distributed" "WRF" "ERA" "EC-Earth3" "historical" "1hr"
              "cf.zmetadata" "d03"
              "s3://wfclimres/ERA/pv_distributed/ec-earth3/historical/1hr/cf")).
Proof.
  split.
  - destruct (C10_terminal_segment_ignored chain_names netcdf_path []
                "ERA" "pv_distributed" "ec-earth3" "historical" "1hr" "cf"
                "d03" "data.nc" "EC-Earth3")
      as (p & Hr & Hnone & _).
    + vm_compute. reflexivity.
    + vm_compute. reflexivity.
    + rewrite Hr, Hnone; [reflexivity |].
      apply StrFacts.not_contains_spec. vm_compute. reflexivity.
  - destruct (C10_terminal_segment_ignored chain_names early_zmetadata_path []
                "ERA" "pv_distributed" "ec-earth3" "historical" "1hr"
                "cf.zmetadata" "d03" "x" "EC-Earth3")
      as (p & Hr & _ & Hfirst).
    + vm_compute. reflexivity.
    + vm_compute. reflexivity.
    + rewrite Hr.
      rewrite (Hfirst
        "s3://wfclimres/ERA/pv_distributed/ec-earth3/historical/1hr/cf"
        "/d03/x"); [reflexivity |].
      split; vm_compute; reflexivity.
Defined.

(** * More about the parser *)

(** A string that holds the separator splits into two pieces at least. *)
Lemma split_two_pieces (s sep : string) :
  sep ≠ "" → Str.contains s sep →
  ∃ a b rest, Str.split s sep = a :: b :: rest.
Proof.
  intros Hsep Hc.
  destruct (StrFacts.first_occurrence_or_none s sep) as [Hn | (a & b & H)];
    [done |].
  rewrite (StrFacts.split_first_occurrence s sep a b) by done.
  destruct (StrFacts.split_head b sep Hsep) as (h & rest & _ & -> & _).
  by exists a, h, rest.
Qed.

Lemma segments_of_None_iff (fp : string) :
  segments_of fp = None ↔ ¬ Str.contains fp root_prefix.
Proof.
  split.
  - intros H Hc.
    destruct (split_two_pieces fp root_prefix) as (a & b & rest & E);
      [done.. |].
    unfold segments_of in H. by rewrite E in H.
  - intros H. unfold segments_of.
    by rewrite StrFacts.split_not_contains.
Qed.

(** No display name of the table is one of its keys, and no two keys have
    the same display name. *)
Lemma simulation_dict_value_not_key (k v : string) :
  simulation_dict !! k = Some v → simulation_dict !! v = None.
Proof.
  intros H%simulation_dict_Some.
  repeat (apply elem_of_cons in H as [[= -> ->] | H]; [by vm_compute |]).
  by apply elem_of_nil in H.
Qed.

Lemma simulation_dict_inj (k1 k2 v : string) :
  simulation_dict !! k1 = Some v → simulation_dict !! k2 = Some v → k1 = k2.
Proof.
  intros H1%simulation_dict_Some H2%simulation_dict_Some.
  repeat (apply elem_of_cons in H1 as [[= -> ->] | H1];
          [repeat (apply elem_of_cons in H2 as [H2 | H2]; [by simplify_eq |]);
           by apply elem_of_nil in H2 |]).
  by apply elem_of_nil in H1.
Qed.

(** X1. A parse failure record always carries the input path, and is
    returned only when the root prefix is absent (the traceback is that of
    the [IndexError]) or when the number of segments is not eight (the
    traceback is that of the [ValueError]), each rendered after the
    exceptions that were being handled at the call. *)
Theorem X1_failure_only_when_malformed (render : list exn → string) (fp : string)
    (handling : list exn) (asset tb : string) :
  (parse_ae_ren_data render fp handling).1 = inr (ParseFailure asset tb) →
  asset = fp ∧
  ((¬ Str.contains fp root_prefix ∧ tb = render (IndexError :: handling)) ∨
   (∃ segs, segments_of fp = Some segs ∧ length segs ≠ 8 ∧
            tb = render (ValueError (length segs) :: handling))).
Proof.
  intros H.
  destruct (parse_cases fp handling)
    as [E | [(segs & E & Hlen)
          | (s1 & s2 & s3 & s4 & s5 & s6 & s7 & s8 & E & [Hk | [c Hk]])]].
  - rewrite (parse_no_segments _ _ _ E) in H. injection H as <- <-.
    split; [done |]. left. split; [| done]. by apply segments_of_None_iff.
  - rewrite (parse_bad_count _ _ _ _ E Hlen) in H. injection H as <- <-.
    split; [done |]. right. by exists segs.
  - rewrite (parse_unknown _ _ _ _ _ _ _ _ _ _ _ E Hk) in H. done.
  - destruct (parse_known render fp handling _ _ _ _ _ _ _ _ _ E Hk)
      as (p & rest & _ & Hr).
    rewrite Hr in H. done.
Qed.

Lemma X1_failure_only_when_malformed_witness :
  five_segment_path = five_segment_path ∧
  ((¬ Str.contains five_segment_path root_prefix ∧
    "ValueError" = chain_names [IndexError]) ∨
   (∃ segs, segments_of five_segment_path = Some segs ∧ length segs ≠ 8 ∧
            "ValueError" = chain_names [ValueError (length segs)])).
Proof.
  apply (X1_failure_only_when_malformed chain_names five_segment_path []
           five_segment_path "ValueError").
  vm_compute. reflexivity.
Defined.

(** X2. The only exception that leaves the parser is the [KeyError] of the
    lookup: a call raises exactly when the path has eight segments of which
    the third is no key of the table, and the exception names that
    segment. *)
Theorem X2_only_KeyError_escapes (render : list exn → string) (fp : string)
    (handling : list exn) (e : exn) :
  (parse_ae_ren_data render fp handling).1 = inl e ↔
  ∃ s1 s2 s3 s4 s5 s6 s7 s8,
    segments_of fp = Some [s1; s2; s3; s4; s5; s6; s7; s8] ∧
    simulation_dict !! s3 = None ∧
    e = KeyError s3.
Proof.
  split.
  - apply parse_raises_inv.
  - intros (s1 & s2 & s3 & s4 & s5 & s6 & s7 & s8 & E & Hk & ->).
    by rewrite (parse_unknown render fp handling s1 s2 s3 s4 s5 s6 s7 s8).
Qed.

(** X3. The lookup is by the token as it stands: a path of eight segments
    whose third segment is a display name of the table ([EC-Earth3] and the
    like) is not recognised, the call raises [KeyError]. *)
Theorem X3_display_name_is_no_token (render : list exn → string) (fp : string)
    (handling : list exn) (s1 s2 s3 s4 s5 s6 s7 s8 token : string) :
  segments_of fp = Some [s1; s2; s3; s4; s5; s6; s7; s8] →
  simulation_dict !! token = Some s3 →
  parse_ae_ren_data render fp handling = (inl (KeyError s3), handling).
Proof.
  intros E Hk. eapply parse_unknown; [done |].
  by eapply simulation_dict_value_not_key.
Qed.

Lemma X3_display_name_is_no_token_witness :
  parse_ae_ren_data chain_names docstring_path []
  = (inl (KeyError "EC-Earth3"), []).
Proof.
  apply (X3_display_name_is_no_token chain_names docstring_path []
           "ERA" "WRF" "EC-Earth3" "experiment" "precipitation" "variable"
           "zarr" "file.zmetadata" "ec-earth3").
  - vm_compute. reflexivity.
  - vm_compute. reflexivity.
Defined.

(** X4. Two catalog records with the same [source_id] come from paths with
    the same third segment: the display name determines the token. *)
Theorem X4_source_id_determines_token (render : list exn → string)
    (fp1 fp2 : string) (handling1 handling2 : list exn) (r1 r2 : info) :
  (parse_ae_ren_data render fp1 handling1).1 = inr (CatalogRecord r1) →
  (parse_ae_ren_data render fp2 handling2).1 = inr (CatalogRecord r2) →
  source_id r1 = source_id r2 →
  ∃ segs1 segs2 token,
    segments_of fp1 = Some segs1 ∧ segments_of fp2 = Some segs2 ∧
    segs1 !! 2 = Some token ∧ segs2 !! 2 = Some token.
Proof.
  intros H1 H2 Heq.
  destruct (parse_record_inv _ _ _ _ H1)
    as (a1 & a2 & a3 & a4 & a5 & a6 & a7 & a8 & ? & Ea & Ka & _).
  destruct (parse_record_inv _ _ _ _ H2)
    as (b1 & b2 & b3 & b4 & b5 & b6 & b7 & b8 & ? & Eb & Kb & _).
  rewrite Heq in Ka.
  assert (a3 = b3) as -> by by eapply simulation_dict_inj.
  by exists [a1; a2; b3; a4; a5; a6; a7; a8],
            [b1; b2; b3; b4; b5; b6; b7; b8], b3.
Qed.

Lemma X4_source_id_determines_token_witness :
  ∃ segs1 segs2 token,
    segments_of guide_path = Some segs1 ∧ segments_of netcdf_path = Some segs2 ∧
    segs1 !! 2 = Some token ∧ segs2 !! 2 = Some token.
Proof.
  apply (X4_source_id_determines_token chain_names guide_path netcdf_path
    [] []
    (MkInfo "pv_distributed" "WRF" "ERA" "EC-Earth3" "historical" "1hr" "cf"
       "d03" "s3://wfclimres/ERA/pv_distributed/ec-earth3/historical/1hr/cf/d03/")
    (MkInfo "pv_distributed" "WRF" "ERA" "EC-Earth3" "historical" "1hr" "cf"
       "d03" netcdf_path)).
  - vm_compute. reflexivity.
  - vm_compute. reflexivity.
  - reflexivity.
Defined.

(** ** Paths whose last segment may be empty *)

Lemma join_no_double_last (c : ascii) (init : list string) (last : string) :
  Forall (λ s, s ≠ "" ∧ Str.occurs c s = false) init →
  Str.occurs c last = false →
  ¬ Str.contains (Str.join (String c "") (init ++ [last]))
      (String c (String c "")) ∧
  Str.startswith (Str.join (String c "") (init ++ [last])) (String c "")
  = false.
Proof.
  intros Hinit Hlast. induction Hinit as [|x l [Hne Hx] Hl [IH1 IH2]].
  - simpl. split.
    + intros H%StrFacts.contains_double. congruence.
    + destruct last as [|a last]; [done |]. simpl in *.
      by apply orb_false_iff in Hlast as [-> _].
  - change ((x :: l) ++ [last])%list with (x :: (l ++ [last]))%list.
    rewrite StrFacts.join_cons by (by destruct l). split.
    + by apply StrFacts.no_double_app.
    + destruct x as [|a x]; [done |]. simpl in *.
      by apply orb_false_iff in Hx as [-> _].
Qed.

Lemma segments_of_join_last (init : list string) (last : string) :
  Forall plain_segment init → ¬ Str.contains last "/" →
  segments_of (root_prefix +:+ Str.join "/" (init ++ [last]))
  = Some (init ++ [last])%list.
Proof.
  intros Hinit Hlast%StrFacts.occurs_contains. unfold segments_of.
  assert (Hocc : Forall (λ s, s ≠ "" ∧ Str.occurs "/" s = false) init).
  { eapply Forall_impl; [done |]. apply plain_segment_occurs. }
  rewrite StrFacts.split_sep by done.
  rewrite StrFacts.split_not_contains.
  - simpl. f_equal. apply (StrFacts.split_join "/"); [by destruct init |].
    apply Forall_app. split; [| by apply Forall_singleton].
    eapply Forall_impl; [done |]. by intros s [_ ?].
  - intros (a & b & H).
    destruct (join_no_double_last "/" init last Hocc Hlast) as [Hd _].
    apply Hd. exists (a +:+ "s3:"), ("wfclimres/" +:+ b).
    rewrite H, StrFacts.app_assoc. done.
Qed.

Lemma root_prefix_join (l : list string) :
  l ≠ [] →
  root_prefix +:+ Str.join "/" l
  = Str.join "/" ("s3:" :: "" :: "wfclimres" :: l).
Proof. intros H. by rewrite !StrFacts.join_cons. Qed.

(** Cutting at [.zmetadata] a path whose earlier segments do not hold it
    cuts its last segment. *)
Lemma split_zmetadata_last (init rest : list string) (last h : string) :
  Forall (λ s, ¬ Str.contains s zmetadata) init →
  Str.split last zmetadata = h :: rest →
  Str.split (root_prefix +:+ Str.join "/" (init ++ [last])) zmetadata
  = (root_prefix +:+ Str.join "/" (init ++ [h])) :: rest.
Proof.
  intros Hinit Hlast.
  rewrite !root_prefix_join by (by destruct init).
  apply (StrFacts.split_join_snoc "/" zmetadata last h
           ("s3:" :: "" :: "wfclimres" :: init) rest); [done.. | | done].
  repeat (apply Forall_cons; split;
          [by apply StrFacts.not_contains_spec |]).
  done.
Qed.

(** X5. Parsing the path field of a record gives the record again: for a
    path made of the root prefix and eight segments, the first seven not
    empty, without [/] and without [.zmetadata], the third a key of the
    table, the parser returns a record, and called on that record's path it
    returns the same record. *)
Theorem X5_path_field_parses_to_same_record (render : list exn → string)
    (handling handling' : list exn)
    (s1 s2 s3 s4 s5 s6 s7 s8 canonical : string) :
  Forall plain_segment [s1; s2; s3; s4; s5; s6; s7] →
  Forall (λ s, ¬ Str.contains s zmetadata) [s1; s2; s3; s4; s5; s6; s7] →
  ¬ Str.contains s8 "/" →
  simulation_dict !! s3 = Some canonical →
  ∃ r,
    (parse_ae_ren_data render
       (root_prefix +:+ Str.join "/" [s1; s2; s3; s4; s5; s6; s7; s8])
       handling).1
    = inr (CatalogRecord r) ∧
    (parse_ae_ren_data render (path r) handling').1 = inr (CatalogRecord r).
Proof.
  intros Hplain Hz H8 Hk.
  set (init := [s1; s2; s3; s4; s5; s6; s7]) in *.
  set (fp := root_prefix +:+ Str.join "/" [s1; s2; s3; s4; s5; s6; s7; s8]).
  destruct (StrFacts.split_head s8 zmetadata) as (h & rest & t & Hs8 & Ht & _);
    [done |].
  assert (Hh : ¬ Str.contains h "/").
  { apply StrFacts.occurs_contains. apply StrFacts.occurs_contains in H8.
    rewrite Ht, StrFacts.occurs_app in H8.
    by apply orb_false_iff in H8 as [? _]. }
  set (p0 := root_prefix +:+ Str.join "/" [s1; s2; s3; s4; s5; s6; s7; h]).
  assert (Hcut : Str.split fp zmetadata = p0 :: rest)
    by exact (split_zmetadata_last init rest s8 h Hz Hs8).
  assert (Hseg : segments_of fp = Some [s1; s2; s3; s4; s5; s6; s7; s8])
    by exact (segments_of_join_last init s8 Hplain H8).
  assert (Hseg0 : segments_of p0 = Some [s1; s2; s3; s4; s5; s6; s7; h])
    by exact (segments_of_join_last init h Hplain Hh).
  assert (Hp0 : ¬ Str.contains p0 zmetadata).
  { destruct (StrFacts.split_head fp zmetadata) as (h0 & ? & ? & E & _ & Hno);
      [done |].
    rewrite Hcut in E. by injection E as -> _. }
  destruct (parse_known render fp handling _ _ _ _ _ _ _ _ _ Hseg Hk)
    as (p & rest1 & Hp & Hr).
  destruct (parse_known render p0 handling' _ _ _ _ _ _ _ _ _ Hseg0 Hk)
    as (p' & rest2 & Hp' & Hr').
  rewrite Hcut in Hp. injection Hp as <- _.
  rewrite StrFacts.split_not_contains in Hp' by done. injection Hp' as <- _.
  eexists. split; [by rewrite Hr |]. simpl. by rewrite Hr'.
Qed.

Lemma X5_path_field_parses_to_same_record_witness :
  ∃ r,
    (parse_ae_ren_data chain_names guide_path []).1 = inr (CatalogRecord r) ∧
    (parse_ae_ren_data chain_names (path r) [IndexError]).1
    = inr (CatalogRecord r).
Proof.
  apply (X5_path_field_parses_to_same_record chain_names [] [IndexError]
           "ERA" "pv_distributed" "ec-earth3" "historical" "1hr" "cf" "d03"
           ".zmetadata" "EC-Earth3").
  - repeat (apply Forall_cons; split;
            [split; [done | by apply StrFacts.not_contains_spec] |]).
    apply Forall_nil_2.
  - repeat (apply Forall_cons; split;
            [by apply StrFacts.not_contains_spec |]).
    apply Forall_nil_2.
  - apply StrFacts.not_contains_spec. vm_compute. reflexivity.
  - vm_compute. reflexivity.
Defined.

(** X6. Text before the root prefix changes nothing but the path that is
    carried: when the root prefix first occurs after [a] and does not occur
    again, the path has the segments of the path without [a]; where that one
    gives a record the path gives a record with the same eight attributes,
    where it gives a failure the path gives a failure with the same
    traceback, and where it raises the path raises the same exception. *)
Theorem X6_text_before_prefix_ignored (render : list exn → string)
    (fp a b : string) (handling : list exn) :
  Str.first_occurrence fp root_prefix a b →
  ¬ Str.contains b root_prefix →
  segments_of fp = segments_of (root_prefix +:+ b) ∧
  (∀ r,
     (parse_ae_ren_data render (root_prefix +:+ b) handling).1
     = inr (CatalogRecord r) →
     ∃ p,
       (parse_ae_ren_data render fp handling).1
       = inr (CatalogRecord {|
                installation := installation r;
                activity_id := activity_id r;
                institution_id := institution_id r;
                source_id := source_id r;
                experiment_id := experiment_id r;
                table_id := table_id r;
                variable_id := variable_id r;
                grid_label := grid_label r;
                path := p |})) ∧
  (∀ tb,
     (parse_ae_ren_data render (root_prefix +:+ b) handling).1
     = inr (ParseFailure (root_prefix +:+ b) tb) →
     (parse_ae_ren_data render fp handling).1 = inr (ParseFailure fp tb)) ∧
  (∀ e,
     (parse_ae_ren_data render (root_prefix +:+ b) handling).1 = inl e →
     (parse_ae_ren_data render fp handling).1 = inl e).
Proof.
  intros Hfirst Hno.
  assert (E : segments_of fp = Some (Str.split b "/"))
    by by apply (segments_of_first_occurrence fp a b).
  assert (E' : segments_of (root_prefix +:+ b) = Some (Str.split b "/")).
  { unfold segments_of. rewrite StrFacts.split_sep by done.
    by rewrite StrFacts.split_not_contains. }
  split; [by rewrite E, E' |].
  destruct (decide (length (Str.split b "/") = 8)) as [Hlen | Hlen].
  - destruct (Str.split b "/") as [|s1 [|s2 [|s3 [|s4 [|s5 [|s6 [|s7 [|s8 [|]]]]]]]]];
      try done.
    destruct (simulation_dict !! s3) as [c|] eqn:Hk.
    + destruct (parse_known render fp handling _ _ _ _ _ _ _ _ _ E Hk)
        as (p & ? & _ & ->).
      destruct (parse_known render (root_prefix +:+ b) handling
                  _ _ _ _ _ _ _ _ _ E' Hk) as (p' & ? & _ & ->).
      split; [| done]. intros r [= <-]. by exists p.
    + rewrite (parse_unknown render fp handling _ _ _ _ _ _ _ _ E Hk).
      rewrite (parse_unknown render _ handling _ _ _ _ _ _ _ _ E' Hk).
      done.
  - rewrite (parse_bad_count render fp handling _ E Hlen).
    rewrite (parse_bad_count render _ handling _ E' Hlen).
    split; [done |]. split; [| done]. by intros tb [= <-].
Qed.

Lemma X6_text_before_prefix_ignored_witness :
  ∃ p,
    (parse_ae_ren_data chain_names junk_path []).1
    = inr (CatalogRecord (MkInfo "pv_distributed" "WRF" "ERA" "EC-Earth3"
                            "historical" "1hr" "cf" "d03" p)).
Proof.
  destruct (X6_text_before_prefix_ignored chain_names junk_path "junk-"
              "era/pv_distributed/ec-earth3/historical/1hr/cf/d03/.zmetadata"
              []) as (_ & Hrec & _).
  - split; vm_compute; reflexivity.
  - apply StrFacts.not_contains_spec. vm_compute. reflexivity.
  - apply (Hrec (MkInfo "pv_distributed" "WRF" "ERA" "EC-Earth3"
                   "historical" "1hr" "cf" "d03"
                   "s3://wfclimres/era/pv_distributed/ec-earth3/historical/1hr/cf/d03/")).
    vm_compute. reflexivity.
Defined.

(** ** The roots of the second Builder *)

Lemma installations_plain (installation : string) :
  installation ∈ installations → plain_segment installation.
Proof.
  intros H.
  repeat (apply elem_of_cons in H as [-> | H];
          [split; [done | by apply StrFacts.not_contains_spec] |]).
  by apply elem_of_nil in H.
Qed.

Lemma asset_below_method2 (installation name : string) (dirs : list string) :
  asset_below (method2_path installation) dirs name
  = root_prefix +:+
    Str.join "/" ("era" :: installation :: dirs ++ [name]).
Proof.
  unfold asset_below, method2_path.
  rewrite !StrFacts.join_cons by (by destruct dirs).
  by rewrite !StrFacts.app_assoc.
Qed.

(** X7. Under a root of the second Builder, a file found below plain
    directories has the segments [era], the installation, the directories
    and the file name. It is parsed to a failure record with its own path
    when the number of directories is not the Builder's depth, five, and a
    record is returned only at that depth, with the installation of the root
    and the source of the first directory. *)
Theorem X7_method2_depth (render : list exn → string) (inst name : string)
    (dirs : list string) (handling : list exn) :
  inst ∈ installations →
  Forall plain_segment dirs →
  plain_segment name →
  let asset := asset_below (method2_path inst) dirs name in
  segments_of asset = Some ("era" :: inst :: dirs ++ [name])%list ∧
  (length dirs ≠ method2_depth →
   (parse_ae_ren_data render asset handling).1
   = inr (ParseFailure asset
            (render (ValueError (length dirs + 3) :: handling)))) ∧
  (∀ r,
     (parse_ae_ren_data render asset handling).1 = inr (CatalogRecord r) →
     length dirs = method2_depth ∧
     installation r = inst ∧
     ∃ token,
       dirs !! 0 = Some token ∧
       simulation_dict !! token = Some (source_id r)).
Proof.
  intros Hin Hdirs Hname asset.
  assert (Hseg : segments_of asset
                 = Some ("era" :: inst :: dirs ++ [name])%list).
  { subst asset. rewrite asset_below_method2.
    apply (segments_of_join_last ("era" :: inst :: dirs) name);
      [| by destruct Hname].
    apply Forall_cons. split.
    { split; [done | by apply StrFacts.not_contains_spec]. }
    apply Forall_cons. split; [by apply installations_plain | done]. }
  split; [done |]. split.
  - intros Hlen.
    rewrite (parse_bad_count render asset handling _ Hseg).
    + replace (length dirs + 3)
        with (length ("era" :: inst :: dirs ++ [name])%list); [done |].
      simpl. rewrite length_app. simpl. lia.
    + simpl. rewrite length_app. simpl. unfold method2_depth in Hlen. lia.
  - intros r Hr.
    destruct (parse_record_inv _ _ _ _ Hr)
      as (s1 & s2 & s3 & s4 & s5 & s6 & s7 & s8 & ? & Hs & Hk & _ & ->).
    rewrite Hseg in Hs. injection Hs as _ <- Hs.
    destruct dirs as [|d1 [|d2 [|d3 [|d4 [|d5 [|d6 dirs]]]]]];
      simplify_eq/=; [| by destruct dirs].
    split; [done |]. split; [done |]. by exists s3.
Qed.

Lemma X7_method2_depth_witness :
  segments_of
    (asset_below (method2_path "pv_utility")
       ["miroc6"; "ssp370"; "day"; "gen"; "d02"] ".zmetadata")
  = Some ["era"; "pv_utility"; "miroc6"; "ssp370"; "day"; "gen"; "d02";
          ".zmetadata"] ∧
  (parse_ae_ren_data chain_names
     (asset_below (method2_path "pv_utility") ["miroc6"; "ssp370"]
        ".zmetadata") []).1
  = inr (ParseFailure
           (asset_below (method2_path "pv_utility") ["miroc6"; "ssp370"]
              ".zmetadata")
           (chain_names [ValueError 5])).
Proof.
  split.
  - apply (X7_method2_depth chain_names "pv_utility" ".zmetadata"
             ["miroc6"; "ssp370"; "day"; "gen"; "d02"] []).
    + apply elem_of_cons. right. apply elem_of_cons. left. reflexivity.
    + repeat (apply Forall_cons; split;
              [split; [done | by apply StrFacts.not_contains_spec] |]).
      apply Forall_nil_2.
    + split; [done | by apply StrFacts.not_contains_spec].
  - apply (X7_method2_depth chain_names "pv_utility" ".zmetadata"
             ["miroc6"; "ssp370"] []).
    + apply elem_of_cons. right. apply elem_of_cons. left. reflexivity.
    + repeat (apply Forall_cons; split;
              [split; [done | by apply StrFacts.not_contains_spec] |]).
      apply Forall_nil_2.
    + split; [done | by apply StrFacts.not_contains_spec].
    + vm_compute. lia.
Defined.

(** * The scan of the bucket *)

Section Scan.

Variable glob : string → list string.

Implicit Types (insts srcs : list string) (st : scan_state).

Lemma inner_loop_pbar installation st srcs :
  pbar (foldl (scan_query glob installation) st srcs)
  = pbar st + length srcs.
Proof.
  revert st. induction srcs as [|s srcs IH]; intros st; simpl; [lia |].
  rewrite IH. simpl. lia.
Qed.

Lemma inner_loop_filepaths installation st srcs :
  filepaths (foldl (scan_query glob installation) st srcs)
  = (filepaths st ++
     (srcs ≫= λ source_id,
        zarr_path <$> glob (glob_pattern installation source_id)))%list.
Proof.
  revert st. induction srcs as [|s srcs IH]; intros st; simpl.
  - by rewrite app_nil_r.
  - rewrite IH. simpl. by rewrite <- app_assoc.
Qed.

Lemma outer_loop_pbar st insts srcs :
  pbar (foldl (λ st installation,
                 foldl (scan_query glob installation) st srcs) st insts)
  = pbar st + length insts * length srcs.
Proof.
  revert st. induction insts as [|i insts IH]; intros st; simpl; [lia |].
  rewrite IH, inner_loop_pbar. lia.
Qed.

Lemma outer_loop_filepaths st insts srcs :
  filepaths (foldl (λ st installation,
                      foldl (scan_query glob installation) st srcs) st insts)
  = (filepaths st ++
     (insts ≫= λ installation, srcs ≫= λ source_id,
        zarr_path <$> glob (glob_pattern installation source_id)))%list.
Proof.
  revert st. induction insts as [|i insts IH]; intros st; simpl.
  - by rewrite app_nil_r.
  - rewrite IH, inner_loop_filepaths. by rewrite <- app_assoc.
Qed.

End Scan.

(** A zarr path starts with the scheme and holds no [.zmetadata]. *)
Lemma zarr_path_clean (file : string) :
  Str.startswith (zarr_path file) "s3://" = true ∧
  ¬ Str.contains (zarr_path file) zmetadata.
Proof.
  unfold zarr_path. split; [apply StrFacts.startswith_app |].
  destruct (StrFacts.split_head file zmetadata) as (h & rest & t & -> & _ & Hno);
    [done |].
  simpl. intros H.
  do 5 (apply StrFacts.contains_cons_inv in H as [H | H]; [done |]).
  done.
Qed.

(** X8. The progress bar ends at its announced total: whatever the bucket
    lists, the scan over any two lists makes one update per pair, and
    [total_iterations] is that number. *)
Theorem X8_progress_bar_reaches_total (glob : string → list string)
    (insts srcs : list string) :
  pbar (scan glob insts srcs) = total_iterations insts srcs.
Proof.
  unfold scan, total_iterations. by rewrite outer_loop_pbar.
Qed.

(** X9. The scan collects one zarr path per listed file, in the order of the
    queries (installations outermost, then simulations, then the listing of
    each query); none is dropped and none is added. *)
Theorem X9_one_path_per_listed_file (glob : string → list string)
    (insts srcs : list string) :
  filepaths (scan glob insts srcs)
  = (insts ≫= λ installation, srcs ≫= λ source_id,
       zarr_path <$> glob (glob_pattern installation source_id)) ∧
  length (filepaths (scan glob insts srcs))
  = length (insts ≫= λ installation, srcs ≫= λ source_id,
              glob (glob_pattern installation source_id)).
Proof.
  assert (H : filepaths (scan glob insts srcs)
              = (insts ≫= λ installation, srcs ≫= λ source_id,
                   zarr_path <$> glob (glob_pattern installation source_id)))
    by (unfold scan; by rewrite outer_loop_filepaths).
  split; [done |]. rewrite H. clear H.
  induction insts as [|i insts IH]; [done |].
  rewrite !bind_cons, !length_app, IH. f_equal. clear IH.
  induction srcs as [|s srcs IHs]; [done |].
  by rewrite !bind_cons, !length_app, IHs, length_fmap.
Qed.

(** X10. Every path the scan collects starts with [s3://], holds no
    [.zmetadata], and is the zarr path of a file listed by the query of one
    of the installations and one of the simulations. *)
Theorem X10_collected_paths_are_clean (glob : string → list string)
    (insts srcs : list string) (p : string) :
  p ∈ filepaths (scan glob insts srcs) →
  Str.startswith p "s3://" = true ∧
  ¬ Str.contains p zmetadata ∧
  ∃ installation source_id file,
    installation ∈ insts ∧ source_id ∈ srcs ∧
    file ∈ glob (glob_pattern installation source_id) ∧
    p = zarr_path file.
Proof.
  unfold scan. rewrite outer_loop_filepaths. simpl.
  intros (i & Hp & Hi)%list_elem_of_bind.
  apply list_elem_of_bind in Hp as (s & Hp & Hs).
  apply list_elem_of_fmap in Hp as (file & -> & Hfile).
  destruct (zarr_path_clean file) as [? ?].
  split; [done |]. split; [done |]. by exists i, s, file.
Qed.

Lemma X10_collected_paths_are_clean_witness :
  Str.startswith "s3://wfclimres/era/pv_utility/miroc6/ssp370/day/gen/d02/"
    "s3://" = true ∧
  ¬ Str.contains "s3://wfclimres/era/pv_utility/miroc6/ssp370/day/gen/d02/"
      zmetadata ∧
  ∃ installation source_id file,
    installation ∈ installations ∧ source_id ∈ source_ids ∧
    file ∈ (λ pattern,
              if String.eqb pattern (glob_pattern "pv_utility" "miroc6")
              then ["wfclimres/era/pv_utility/miroc6/ssp370/day/gen/d02/.zmetadata"]
              else []) (glob_pattern installation source_id) ∧
    "s3://wfclimres/era/pv_utility/miroc6/ssp370/day/gen/d02/"
    = zarr_path file.
Proof.
  apply (X10_collected_paths_are_clean
           (λ pattern,
              if String.eqb pattern (glob_pattern "pv_utility" "miroc6")
              then ["wfclimres/era/pv_utility/miroc6/ssp370/day/gen/d02/.zmetadata"]
              else [])
           installations source_ids).
  vm_compute. apply list_elem_of_singleton. reflexivity.
Defined.

(** X11. For a listed file whose first [.zmetadata] is its ending, the zarr
    path with [.zmetadata] appended is the file's address again; for a file
    without [.zmetadata] the zarr path is the address itself. *)
Theorem X11_zarr_path_round_trip (file a : string) :
  (Str.first_occurrence file zmetadata a "" →
   zarr_path file +:+ zmetadata = "s3://" +:+ file) ∧
  (¬ Str.contains file zmetadata → zarr_path file = "s3://" +:+ file).
Proof.
  unfold zarr_path. split.
  - intros H.
    rewrite (StrFacts.split_first_occurrence file zmetadata a "") by done.
    destruct H as [-> _]. simpl. by rewrite StrFacts.app_assoc.
  - intros H. by rewrite StrFacts.split_not_contains.
Qed.

Lemma source_ids_known (source_id : string) :
  source_id ∈ source_ids →
  plain_segment source_id ∧ ¬ Str.contains source_id zmetadata ∧
  is_Some (simulation_dict !! source_id).
Proof.
  intros H.
  repeat (apply elem_of_cons in H as [-> | H];
          [split; [split; [done | by apply StrFacts.not_contains_spec] |];
           split; [by apply StrFacts.not_contains_spec
                  | eexists; vm_compute; reflexivity] |]).
  by apply elem_of_nil in H.
Qed.

Lemma installations_no_zmetadata (inst : string) :
  inst ∈ installations → ¬ Str.contains inst zmetadata.
Proof.
  intros H.
  repeat (apply elem_of_cons in H as [-> | H];
          [by apply StrFacts.not_contains_spec |]).
  by apply elem_of_nil in H.
Qed.

(** X12. The scan and the parser agree. For a file of the bucket that a
    query of the scan lists four plain directories below its simulation,
    [wfclimres/era/<installation>/<source_id>/e/t/v/g/.zmetadata], the parser
    called on the file's address returns a catalog record, it does not
    raise: every simulation of the scan is a key of the lookup table. The
    record has the installation of the query, and its path is the zarr path
    the scan collected for the file. *)
Theorem X12_scan_and_parser_agree (render : list exn → string)
    (handling : list exn) (inst src e t v g : string) :
  inst ∈ installations →
  src ∈ source_ids →
  Forall (λ s, plain_segment s ∧ ¬ Str.contains s zmetadata) [e; t; v; g] →
  let file :=
    "wfclimres/" +:+
    Str.join "/" ["era"; inst; src; e; t; v; g; ".zmetadata"] in
  ∃ canonical,
    simulation_dict !! src = Some canonical ∧
    (parse_ae_ren_data render ("s3://" +:+ file) handling).1
    = inr (CatalogRecord {|
             installation := inst;
             activity_id := "WRF";
             institution_id := "ERA";
             source_id := canonical;
             experiment_id := e;
             table_id := t;
             variable_id := v;
             grid_label := g;
             path := zarr_path file |}).
Proof.
  intros Hinst Hsrc Hdirs file.
  destruct (source_ids_known src Hsrc) as (Hsp & Hsz & [canonical Hk]).
  pose proof (installations_plain inst Hinst) as Hip.
  pose proof (installations_no_zmetadata inst Hinst) as Hiz.
  apply Forall_cons in Hdirs as [[He Hez] Hdirs].
  apply Forall_cons in Hdirs as [[Ht Htz] Hdirs].
  apply Forall_cons in Hdirs as [[Hv Hvz] Hdirs].
  apply Forall_cons in Hdirs as [[Hg Hgz] _].
  set (init := ["era"; inst; src; e; t; v; g]).
  assert (Hplain : Forall plain_segment init).
  { apply Forall_cons. split.
    { split; [done | by apply StrFacts.not_contains_spec]. }
    repeat (apply Forall_cons; split; [done |]). apply Forall_nil_2. }
  assert (Hz : Forall (λ s, ¬ Str.contains s zmetadata) init).
  { apply Forall_cons. split; [by apply StrFacts.not_contains_spec |].
    repeat (apply Forall_cons; split; [done |]). apply Forall_nil_2. }
  assert (Hseg : segments_of ("s3://" +:+ file)
                 = Some ["era"; inst; src; e; t; v; g; ".zmetadata"]).
  { apply (segments_of_join_last init ".zmetadata" Hplain).
    by apply StrFacts.not_contains_spec. }
  assert (Hcut : Str.split ("s3://" +:+ file) zmetadata
                 = (root_prefix +:+ Str.join "/" (init ++ [""])) :: [""])
    by by apply (split_zmetadata_last init [""] zmetadata "").
  assert (Hfile : Str.split file zmetadata
                  = Str.join "/" (("wfclimres" :: init) ++ [""]) :: [""]).
  { apply (StrFacts.split_join_snoc "/" zmetadata zmetadata ""
             ("wfclimres" :: init) [""]); [done | done | | by vm_compute].
    apply Forall_cons. split; [by apply StrFacts.not_contains_spec | done]. }
  destruct (parse_known render ("s3://" +:+ file) handling
              _ _ _ _ _ _ _ _ _ Hseg Hk) as (p & rest & Hp & Hr).
  exists canonical. split; [done |]. rewrite Hr. simpl.
  rewrite Hcut in Hp. injection Hp as <- _.
  unfold zarr_path. rewrite Hfile. done.
Qed.

Lemma X12_scan_and_parser_agree_witness :
  ∃ canonical,
    simulation_dict !! "miroc6" = Some canonical ∧
    (parse_ae_ren_data chain_names
       "s3://wfclimres/era/pv_utility/miroc6/ssp370/day/gen/d02/.zmetadata"
       []).1
    = inr (CatalogRecord
             (MkInfo "pv_utility" "WRF" "ERA" canonical "ssp370" "day" "gen"
                "d02"
                (zarr_path
                   "wfclimres/era/pv_utility/miroc6/ssp370/day/gen/d02/.zmetadata"))).
Proof.
  apply (X12_scan_and_parser_agree chain_names []
           "pv_utility" "miroc6" "ssp370" "day" "gen" "d02").
  - apply elem_of_cons. right. apply elem_of_cons. left. reflexivity.
  - apply elem_of_cons. right. apply elem_of_cons. left. reflexivity.
  - repeat (apply Forall_cons; split;
            [split; [split; [done | by apply StrFacts.not_contains_spec]
                    | by apply StrFacts.not_contains_spec] |]).
    apply Forall_nil_2.
Defined.

(** X13. The columns named in the call of [save] are the keys of the
    parser's records: the attributes to group by, the variable column and
    the path column are, without repetition, the nine keys of every
    record. *)
Theorem X13_save_columns_are_record_keys (i : info) :
  (info_items i).*1
  ≡ₚ (groupby_attrs ++ [variable_column_name; path_column_name])%list ∧
  NoDup ((groupby_attrs ++ [variable_column_name; path_column_name])%list) ∧
  (∀ column,
     column ∈ (groupby_attrs ++ [variable_column_name; path_column_name])%list →
     ∃ value, (column, value) ∈ info_items i).
Proof.
  assert (HP : (info_items i).*1
               ≡ₚ (groupby_attrs ++ [variable_column_name; path_column_name])%list).
  { simpl. do 6 apply Permutation_skip. apply Permutation_swap. }
  split; [done |]. split.
  - refine (bool_decide_unpack _ _). by vm_compute.
  - intros column Hc. rewrite <- HP in Hc.
    apply list_elem_of_fmap in Hc as ([k value] & -> & H). by exists value.
Qed.

Lemma X13_save_columns_are_record_keys_witness :
  ∃ value,
    ("variable_id", value)
    ∈ info_items
        (MkInfo "pv_utility" "WRF" "ERA" "MIROC6" "ssp370" "day" "gen" "d02"
           "s3://wfclimres/era/pv_utility/miroc6/ssp370/day/gen/d02/").
Proof.
  apply (X13_save_columns_are_record_keys
           (MkInfo "pv_utility" "WRF" "ERA" "MIROC6" "ssp370" "day" "gen"
              "d02"
              "s3://wfclimres/era/pv_utility/miroc6/ssp370/day/gen/d02/")).
  simpl. do 7 apply list_elem_of_further. apply list_elem_of_here.
Defined.

Lemma X11_zarr_path_round_trip_witness :
  zarr_path "wfclimres/era/pv_utility/miroc6/ssp370/day/gen/d02/.zmetadata"
  +:+ zmetadata
  = "s3://" +:+
    "wfclimres/era/pv_utility/miroc6/ssp370/day/gen/d02/.zmetadata".
Proof.
  apply (X11_zarr_path_round_trip
           "wfclimres/era/pv_utility/miroc6/ssp370/day/gen/d02/.zmetadata"
           "wfclimres/era/pv_utility/miroc6/ssp370/day/gen/d02/").
  split; vm_compute; reflexivity.
Defined.
